(** * A shallow embedding of the Meraki dashboard client (task-4/main.py)

    The embedded script is the complete one, [task-4/main.py]; the other
    variants are earlier stages of it, and [get_device_details] is the
    same function in [task-3/main.py].

    The script is dynamically typed Python over parsed JSON.  The embedding
    keeps that shape: one universal type of JSON values, the handful of
    Python primitives the script applies to them (truth value, [in],
    subscripting, [copy], [len], iteration, hashing of dictionary keys),
    exceptions as an error result, and the effects (environment lookup,
    HTTP requests, file writes, printing) as a trace threaded through the
    effectful functions. *)

From stdpp Require Import gmap strings list fin_maps.
From Stdlib Require Import SpecFloat.

#[local] Set Warnings "-register-all".

(** ** Floating-point numbers

    Python floats enter the script in two places: as JSON numbers inside
    the records that are copied around, and as the result of
    [round(online / total * 100, 2)].  Their arithmetic is the
    interpreter's, not the script's, so it is taken as an interface. *)

Class PyFloat (float : Type) := {
  (** [bool(x)]: false exactly for zeros. *)
  float_truth : float → bool;
  (** [Some n] when the float is integral, in which case it compares and
      hashes equal to the integer [n]. *)
  float_as_integer : float → option Z;
  (** [a / b] on two integers, [b] non-zero. *)
  int_truediv : Z → Z → float;
  (** [x * n] for a float and an integer. *)
  float_mul_int : float → Z → float;
  (** [round(x, ndigits)]. *)
  float_round : float → Z → float;
}.

(** The interface at IEEE 754 binary64, which is what CPython's float is,
    on the Standard Library's executable specification of floats.  It is
    the instance the worked examples run on; every theorem below holds for
    any instance.  [round] covers [ndigits >= 0] and magnitudes below
    [2^53 / 10^ndigits], the range a percentage lives in. *)
Module Binary64.

Definition prec : Z := 53.
Definition emax : Z := 1024.

Definition of_Z (z : Z) : spec_float := binary_normalize prec emax z 0 false.

Definition truediv (a b : Z) : spec_float := SFdiv prec emax (of_Z a) (of_Z b).

Definition mul_int (x : spec_float) (n : Z) : spec_float :=
  SFmul prec emax x (of_Z n).

Definition truth (x : spec_float) : bool :=
  match x with
  | S754_zero _ => false
  | _ => true
  end.

Definition as_integer (x : spec_float) : option Z :=
  match x with
  | S754_zero _ => Some 0%Z
  | S754_finite s m e =>
      let v := (if s then - Z.pos m else Z.pos m)%Z in
      if (0 <=? e)%Z then Some (v * 2 ^ e)%Z
      else if (Z.pos m mod 2 ^ (- e) =? 0)%Z then Some (v / 2 ^ (- e))%Z
      else None
  | _ => None
  end.

(** Round half to even on the exact decimal expansion, then back to the
    nearest double. *)
Definition round (x : spec_float) (ndigits : Z) : spec_float :=
  match x with
  | S754_finite s m e =>
      if (0 <=? e)%Z then x else
      let p := (10 ^ ndigits)%Z in
      let num := (Z.pos m * p)%Z in
      let den := (2 ^ (- e))%Z in
      let q := (num / den)%Z in
      let r := (num mod den)%Z in
      let n := (if (den <? 2 * r)%Z || ((den =? 2 * r)%Z && Z.odd q)
                then q + 1 else q)%Z in
      if (n =? 0)%Z then S754_zero s
      else SFdiv prec emax (of_Z (if s then - n else n)) (of_Z p)
  | _ => x
  end.

Definition float_code (x : spec_float)
  : (bool + bool) + (unit + bool * positive * Z) :=
  match x with
  | S754_zero s => inl (inl s)
  | S754_infinity s => inl (inr s)
  | S754_nan => inr (inl ())
  | S754_finite s m e => inr (inr (s, m, e))
  end.

Definition float_decode (c : (bool + bool) + (unit + bool * positive * Z))
  : spec_float :=
  match c with
  | inl (inl s) => S754_zero s
  | inl (inr s) => S754_infinity s
  | inr (inl _) => S754_nan
  | inr (inr (s, m, e)) => S754_finite s m e
  end.

Lemma float_decode_code x : float_decode (float_code x) = x.
Proof. by destruct x. Qed.

Lemma float_code_inj : Inj (=) (=) float_code.
Proof.
  intros x y E. rewrite <-(float_decode_code x), <-(float_decode_code y).
  by f_equal.
Qed.

#[global] Instance spec_float_eq_dec : EqDecision spec_float :=
  λ x y, match decide (float_code x = float_code y) with
         | left E => left (float_code_inj _ _ E)
         | right N => right (λ E, N (f_equal float_code E))
         end.

#[global] Instance spec_float_countable : Countable spec_float :=
  inj_countable' float_code float_decode float_decode_code.

#[global] Instance binary64 : PyFloat spec_float := {|
  float_truth := truth;
  float_as_integer := as_integer;
  int_truediv := truediv;
  float_mul_int := mul_int;
  float_round := round;
|}.

End Binary64.

(** ** Exceptions *)

Inductive exn_class :=
| BaseException | Exception | KeyboardInterrupt
| ValueError | UnicodeError | UnicodeEncodeError
| LookupError | KeyError | IndexError
| TypeError | AttributeError
| OSError | PermissionError
| RequestException | HTTPError | ConnectionError.

#[global] Instance exn_class_eq_dec : EqDecision exn_class.
Proof. solve_decision. Defined.

(** The method resolution order of each class: itself and its bases. *)
Definition mro (c : exn_class) : list exn_class :=
  match c with
  | BaseException => [BaseException]
  | Exception => [Exception; BaseException]
  | KeyboardInterrupt => [KeyboardInterrupt; BaseException]
  | ValueError => [ValueError; Exception; BaseException]
  | UnicodeError => [UnicodeError; ValueError; Exception; BaseException]
  | UnicodeEncodeError =>
      [UnicodeEncodeError; UnicodeError; ValueError; Exception; BaseException]
  | LookupError => [LookupError; Exception; BaseException]
  | KeyError => [KeyError; LookupError; Exception; BaseException]
  | IndexError => [IndexError; LookupError; Exception; BaseException]
  | TypeError => [TypeError; Exception; BaseException]
  | AttributeError => [AttributeError; Exception; BaseException]
  | OSError => [OSError; Exception; BaseException]
  | PermissionError => [PermissionError; OSError; Exception; BaseException]
  | RequestException => [RequestException; OSError; Exception; BaseException]
  | HTTPError =>
      [HTTPError; RequestException; OSError; Exception; BaseException]
  | ConnectionError =>
      [ConnectionError; RequestException; OSError; Exception; BaseException]
  end.

(** An exception: its class and the argument it was raised with. *)
Record exn := PyExn { exn_cls : exn_class; exn_msg : string }.

(** [isinstance(e, c)], the test an [except c] clause performs. *)
Definition isinstance (e : exn) (c : exn_class) : bool :=
  bool_decide (c ∈ mro (exn_cls e)).

(** ** Results of pure code *)

Inductive result (A : Type) :=
| Ok (a : A)
| Raise (e : exn).
Arguments Ok {A} a.
Arguments Raise {A} e.

#[global] Instance result_ret : MRet result := λ A a, Ok a.
#[global] Instance result_bind : MBind result := λ A B f m,
  match m with
  | Ok a => f a
  | Raise e => Raise e
  end.

(** Monadic map over a list, left to right, stopping at the first raise. *)
Fixpoint mapM_result {A B} (f : A → result B) (l : list A) : result (list B) :=
  match l with
  | [] => Ok []
  | a :: l' => b ← f a; bs ← mapM_result f l'; Ok (b :: bs)
  end.

(** ** Strings

    A [str] is held as the bytes of its UTF-8 encoding (a lone surrogate,
    which [json.loads] can produce, as the three bytes the same scheme
    gives it).  A character is a leading byte with the continuation bytes
    that follow it. *)

(** The byte is a continuation byte, [10xxxxxx]. *)
Definition continuation (c : Ascii.ascii) : bool :=
  let n := Ascii.nat_of_ascii c in Nat.leb 128 n && Nat.ltb n 192.

(** The characters of a [str], in order. *)
Fixpoint chars (s : string) : list string :=
  match s with
  | EmptyString => []
  | String c s' =>
      let following := chars s' in
      match s', following with
      | String c' _, g :: gs =>
          if continuation c' then String c g :: gs
          else String c EmptyString :: following
      | _, _ => String c EmptyString :: following
      end
  end.

(** Every character of the [str] is an ASCII character. *)
Fixpoint is_ascii (s : string) : bool :=
  match s with
  | EmptyString => true
  | String c s' => Nat.ltb (Ascii.nat_of_ascii c) 128 && is_ascii s'
  end.

(** [needle in haystack] on two strings. *)
Fixpoint is_substring (needle haystack : string) : bool :=
  String.prefix needle haystack ||
  match haystack with
  | EmptyString => false
  | String _ rest => is_substring needle rest
  end.

Section Python.
Context {float : Type} `{!EqDecision float, !Countable float, !PyFloat float}.

(** ** JSON values, as [response.json()] produces them *)

Inductive value :=
| VNone
| VBool (b : bool)
| VInt (z : Z)
| VFloat (x : float)
| VStr (s : string)
| VList (l : list value)
| VDict (m : gmap string value).

(** A JSON object.  Insertion order is not kept: no function below
    depends on it, and Python's [==] on dicts ignores it too. *)
Abbreviation dict := (gmap string value).

(** ** Hashable keys

    A Python dict compares its keys with [hash] and [==], under which
    [True == 1 == 1.0] and [False == 0 == 0.0]; lists and dicts are not
    hashable. *)

Inductive key :=
| KNone
| KInt (z : Z)
| KFloat (x : float)
| KStr (s : string).

Definition key_code (k : key) : unit + (Z + (float + string)) :=
  match k with
  | KNone => inl ()
  | KInt z => inr (inl z)
  | KFloat x => inr (inr (inl x))
  | KStr s => inr (inr (inr s))
  end.

Definition key_decode (c : unit + (Z + (float + string))) : key :=
  match c with
  | inl _ => KNone
  | inr (inl z) => KInt z
  | inr (inr (inl x)) => KFloat x
  | inr (inr (inr s)) => KStr s
  end.

Lemma key_decode_code k : key_decode (key_code k) = k.
Proof. by destruct k. Qed.

Lemma key_code_inj : Inj (=) (=) key_code.
Proof.
  intros x y E. rewrite <-(key_decode_code x), <-(key_decode_code y).
  by f_equal.
Qed.

#[global] Instance key_eq_dec : EqDecision key :=
  λ x y, match decide (key_code x = key_code y) with
         | left E => left (key_code_inj _ _ E)
         | right N => right (λ E, N (f_equal key_code E))
         end.

#[global] Instance key_countable : Countable key :=
  inj_countable' key_code key_decode key_decode_code.

Definition hash_key (v : value) : result key :=
  match v with
  | VNone => Ok KNone
  | VBool b => Ok (KInt (if b then 1 else 0))
  | VInt z => Ok (KInt z)
  | VFloat x =>
      Ok (match float_as_integer x with Some z => KInt z | None => KFloat x end)
  | VStr s => Ok (KStr s)
  | VList _ => Raise (PyExn TypeError "unhashable type: 'list'")
  | VDict _ => Raise (PyExn TypeError "unhashable type: 'dict'")
  end.

(** ** Primitives on values *)

(** [bool(v)], the test of [if v], [not v] and [v or w]. *)
Definition truthy (v : value) : bool :=
  match v with
  | VNone => false
  | VBool b => b
  | VInt z => negb (z =? 0)%Z
  | VFloat x => float_truth x
  | VStr s => negb (String.eqb s "")
  | VList l => match l with [] => false | _ => true end
  | VDict m => negb (bool_decide (m = ∅))
  end.

(** [v or w]. *)
Definition py_or (v w : value) : value := if truthy v then v else w.

(** [v == s] for a string literal [s]; no other JSON value equals a str. *)
Definition eq_str (v : value) (s : string) : bool :=
  match v with
  | VStr s' => String.eqb s' s
  | _ => false
  end.

(** [s in v] for a string literal [s]. *)
Definition py_in (s : string) (v : value) : result bool :=
  match v with
  | VDict m => Ok (bool_decide (is_Some (m !! s)))
  | VList l => Ok (existsb (λ x, eq_str x s) l)
  | VStr h => Ok (is_substring s h)
  | _ => Raise (PyExn TypeError "argument is not iterable")
  end.

(** [v[s]] for a string literal [s]. *)
Definition getitem (v : value) (s : string) : result value :=
  match v with
  | VDict m =>
      match m !! s with
      | Some x => Ok x
      | None => Raise (PyExn KeyError s)
      end
  | VList _ => Raise (PyExn TypeError "list indices must be integers or slices, not str")
  | VStr _ => Raise (PyExn TypeError "string indices must be integers, not 'str'")
  | _ => Raise (PyExn TypeError "object is not subscriptable")
  end.

(** [v[0]]. *)
Definition getitem0 (v : value) : result value :=
  match v with
  | VList l =>
      match l with
      | x :: _ => Ok x
      | [] => Raise (PyExn IndexError "list index out of range")
      end
  | VStr s =>
      match chars s with
      | c :: _ => Ok (VStr c)
      | [] => Raise (PyExn IndexError "string index out of range")
      end
  | VDict _ => Raise (PyExn KeyError "0")
  | _ => Raise (PyExn TypeError "object is not subscriptable")
  end.

(** [v.copy()]: lists and dicts have the method, the scalars do not. *)
Definition py_copy (v : value) : result value :=
  match v with
  | VDict m => Ok (VDict m)
  | VList l => Ok (VList l)
  | _ => Raise (PyExn AttributeError "object has no attribute 'copy'")
  end.

(** [v[s] = x] for a string literal [s], returning the updated object. *)
Definition setitem (v : value) (s : string) (x : value) : result value :=
  match v with
  | VDict m => Ok (VDict (<[s := x]> m))
  | VList _ => Raise (PyExn TypeError "list indices must be integers or slices, not str")
  | _ => Raise (PyExn TypeError "object does not support item assignment")
  end.

(** [len(v)]. *)
Definition py_len (v : value) : result Z :=
  match v with
  | VList l => Ok (Z.of_nat (length l))
  | VStr s => Ok (Z.of_nat (length (chars s)))
  | VDict m => Ok (Z.of_nat (size m))
  | _ => Raise (PyExn TypeError "object has no len()")
  end.

(** The elements [for x in v] runs through; for a dict these are its keys,
    here in the order of the map. *)
Definition py_iter (v : value) : result (list value) :=
  match v with
  | VList l => Ok l
  | VStr s => Ok (VStr <$> chars s)
  | VDict m => Ok (VStr <$> (map_to_list m).*1)
  | _ => Raise (PyExn TypeError "object is not iterable")
  end.

(** ** get_device_details *)

(** The dict comprehension
    [{s['serial']: s['status'] for s in statuses if 'serial' in s}],
    one element at a time: the filter, then the key expression, then the
    value expression, then the insertion (which hashes the key). *)
Fixpoint build_status_lookup (statuses : list value) (acc : gmap key value)
  : result (gmap key value) :=
  match statuses with
  | [] => Ok acc
  | s :: rest =>
      has ← py_in "serial" s;
      if has : bool then
        k ← getitem s "serial";
        v ← getitem s "status";
        h ← hash_key k;
        build_status_lookup rest (<[h := v]> acc)
      else build_status_lookup rest acc
  end.

(** [status_lookup.get(k, 'unknown')]. *)
Definition lookup_get (status_lookup : gmap key value) (k : value) : result value :=
  h ← hash_key k;
  Ok (default (VStr "unknown") (status_lookup !! h)).

(** The body of the [for device in devices] loop, yielding the element
    appended to [detailed_devices]. *)
Definition add_status (status_lookup : gmap key value) (device : value)
  : result value :=
  device_info ← py_copy device;
  serial ← getitem device "serial";
  st ← lookup_get status_lookup serial;
  setitem device_info "status" st.

Definition get_device_details (devices statuses : value) : result value :=
  ss ← py_iter statuses;
  status_lookup ← build_status_lookup ss ∅;
  ds ← py_iter devices;
  detailed_devices ← mapM_result (add_status status_lookup) ds;
  Ok (VList detailed_devices).

(** ** Effects

    The world the script runs in is read through five oracles; what the
    script does to it is recorded as a trace of events, in program order. *)

(** A formatted string literal, kept as its pieces: [str()] of a JSON
    value or of an exception is the interpreter's business. *)
Inductive frag :=
| Lit (s : string)
| Fmt (v : value)
| FmtExn (e : exn).

Abbreviation text := (list frag).

Inductive event :=
| Print (t : text)
| HttpGet (url : text) (headers : gmap string value)
| WriteFile (filename : string) (data : value).

Record World := {
  (** [os.environ], after [load_dotenv()] has run at import time. *)
  environ : gmap string string;
  (** What [requests.get(url, headers=...)], [raise_for_status()] and
      [response.json()] come to: the parsed body, or the exception one of
      the three raises. *)
  http : text → gmap string value → result value;
  (** What [open(filename, 'w')] followed by [json.dump(data, f, indent=2)]
      comes to: [None] when both succeed, the exception otherwise. *)
  fs_write : string → value → option exn;
  (** [datetime.now().isoformat()]. *)
  now_isoformat : string;
  (** What encoding [str(v)] for [sys.stdout] comes to: [None] when the
      encoding of the stream has all its characters, the message of the
      [UnicodeEncodeError] otherwise (a lone surrogate in a [str], a
      character outside the encoding). *)
  stdout_error : value → option string;
}.

(** An effectful computation: the events it emits and how it ends. *)
Definition prog (A : Type) : Type := list event * result A.

#[global] Instance prog_ret : MRet prog := λ A a, ([], Ok a).
#[global] Instance prog_bind : MBind prog := λ A B f m,
  match m with
  | (t, Ok a) => let '(t', r) := f a in (t ++ t', r)
  | (t, Raise e) => (t, Raise e)
  end.

Definition lift {A} (r : result A) : prog A := ([], r).
Definition emit (e : event) : prog unit := ([e], Ok tt).

(** What stops [print] from writing a formatted value.  Numbers, booleans
    and [None] are spelt in ASCII, which every encoding of the stream has,
    and so is a [str] of ASCII characters; for other text the stream
    decides. *)
Definition format_error (w : World) (v : value) : option string :=
  match v with
  | VStr s => if is_ascii s then None else stdout_error w v
  | VList _ | VDict _ => stdout_error w v
  | _ => None
  end.

(** The literal text of the script is ASCII, and the text of an exception
    is taken to be text the stream can write: only a value formatted into
    the string can stop a [print]. *)
Definition frag_error (w : World) (f : frag) : option string :=
  match f with
  | Fmt v => format_error w v
  | Lit _ | FmtExn _ => None
  end.

Fixpoint text_error (w : World) (t : text) : option string :=
  match t with
  | [] => None
  | f :: t' =>
      match frag_error w f with
      | Some msg => Some msg
      | None => text_error w t'
      end
  end.

(** [print(f"...")]: the string is encoded as a whole before any of it is
    written, so a [print] that raises has written nothing. *)
Definition print (w : World) (t : text) : prog unit :=
  match text_error w t with
  | Some msg => lift (Raise (PyExn UnicodeEncodeError msg))
  | None => emit (Print t)
  end.

(** [try: body / except c1 as e: h1 e / except c2 as e: h2 e / ...]: the
    first clause whose class the exception is an instance of handles it;
    with none, the exception propagates. *)
Fixpoint find_handler {A} (e : exn) (hs : list (exn_class * (exn → prog A)))
  : option (prog A) :=
  match hs with
  | [] => None
  | (c, h) :: hs' => if isinstance e c then Some (h e) else find_handler e hs'
  end.

Definition try_except {A} (body : prog A)
    (hs : list (exn_class * (exn → prog A))) : prog A :=
  match body with
  | (t, Ok a) => (t, Ok a)
  | (t, Raise e) =>
      match find_handler e hs with
      | Some (t', r) => (t ++ t', r)
      | None => (t, Raise e)
      end
  end.

(** [ValueError("MERAKI_API_KEY not found in environment variables")]. *)
Definition missing_api_key : exn :=
  PyExn ValueError "MERAKI_API_KEY not found in environment variables".

Section Script.
Variable w : World.

(** ** Authentication *)

(** [os.getenv(name)]. *)
Definition getenv (name : string) : value :=
  match environ w !! name with
  | Some s => VStr s
  | None => VNone
  end.

Definition get_api_key : result value :=
  let api_key := getenv "MERAKI_API_KEY" in
  if negb (truthy api_key) then Raise missing_api_key
  else Ok api_key.

Definition get_headers : result dict :=
  api_key ← get_api_key;
  Ok (<["X-Cisco-Meraki-API-Key" := api_key]>
      (<["Content-Type" := VStr "application/json"]> ∅)).

(** ** Requests *)

Definition base_url : string := "https://api.meraki.com/api/v1".

(** [requests.get(url, headers=get_headers())] with the two calls on the
    response: the arguments are evaluated before the request is sent. *)
Definition requests_get_json (url : text) : prog value :=
  headers ← lift get_headers;
  emit (HttpGet url headers);;
  lift (http w url headers).

Definition make_api_request (endpoint : text) : prog value :=
  let url := Lit base_url :: endpoint in
  try_except (requests_get_json url)
    [ (HTTPError, λ http_err,
        print w [Lit "HTTP error occurred: "; FmtExn http_err];; mret VNone);
      (RequestException, λ req_err,
        print w [Lit "Request error occurred: "; FmtExn req_err];; mret VNone);
      (Exception, λ err,
        print w [Lit "Unexpected error: "; FmtExn err];; mret VNone) ].

Definition get_organizations : prog value :=
  let endpoint := [Lit "/organizations"] in
  r ← make_api_request endpoint; mret (py_or r (VList [])).

Definition get_networks (org_id : value) : prog value :=
  let endpoint := [Lit "/organizations/"; Fmt org_id; Lit "/networks"] in
  r ← make_api_request endpoint; mret (py_or r (VList [])).

Definition get_network_inventory (network_id : value) : prog value :=
  let endpoint := [Lit "/networks/"; Fmt network_id; Lit "/devices"] in
  r ← make_api_request endpoint; mret (py_or r (VList [])).

Definition get_device_availabilities (network_id serial : value) : prog value :=
  let endpoint :=
    [Lit "/networks/"; Fmt network_id; Lit "/devices/"; Fmt serial;
     Lit "/availabilities"] in
  r ← make_api_request endpoint; mret (py_or r (VList [])).

Definition get_device_statuses (org_id : value) : prog value :=
  let endpoint := [Lit "/organizations/"; Fmt org_id; Lit "/devices/statuses"] in
  r ← make_api_request endpoint; mret (py_or r (VList [])).

(** ** Persistence *)

Definition open_and_dump (filename : string) (data : value) : prog unit :=
  emit (WriteFile filename data);;
  lift (match fs_write w filename data with
        | None => Ok tt
        | Some e => Raise e
        end).

Definition save_to_file (data : value) (filename : string) : prog bool :=
  try_except
    (open_and_dump filename data;;
     print w [Lit "Data saved to "; Lit filename];;
     mret true)
    [ (Exception, λ e,
        print w [Lit "Error saving to "; Lit filename; Lit ": "; FmtExn e];;
        mret false) ].

(** ** Report *)

(** [sum(1 for d in detailed_devices if d['status'] == s)]. *)
Fixpoint count_status (s : string) (detailed_devices : list value) : result Z :=
  match detailed_devices with
  | [] => Ok 0%Z
  | d :: rest =>
      st ← getitem d "status";
      n ← count_status s rest;
      Ok ((if eq_str st s then 1 else 0) + n)%Z
  end.

(** [round((online / total * 100), 2) if total > 0 else 0]. *)
Definition availability_percentage (online_devices total_devices : Z) : value :=
  if (0 <? total_devices)%Z then
    VFloat (float_round
              (float_mul_int (int_truediv online_devices total_devices) 100) 2)
  else VInt 0.

Definition generate_network_report (org_name network_name devices statuses : value)
  : result value :=
  detailed_devices ← get_device_details devices statuses;
  total_devices ← py_len detailed_devices;
  ds ← py_iter detailed_devices;
  online_devices ← count_status "online" ds;
  offline_devices ← count_status "offline" ds;
  let summary : dict :=
    <["total_devices" := VInt total_devices]>
    (<["online_devices" := VInt online_devices]>
    (<["offline_devices" := VInt offline_devices]>
    (<["availability_percentage" :=
         availability_percentage online_devices total_devices]> ∅))) in
  let report : dict :=
    <["timestamp" := VStr (now_isoformat w)]>
    (<["organization" := org_name]>
    (<["network" := network_name]>
    (<["summary" := VDict summary]>
    (<["devices" := detailed_devices]> ∅)))) in
  Ok (VDict report).

(** ** Orchestrator *)

Definition nl : string := String (Ascii.ascii_of_nat 10) "".

(** The part of [main] under [if statuses:]. *)
Definition report_and_summary (first_org first_network devices statuses : value)
  : prog unit :=
  print w [Lit (nl +:+ "Generating network report...")];;
  org_name ← lift (getitem first_org "name");
  network_name ← lift (getitem first_network "name");
  report ← lift (generate_network_report org_name network_name devices statuses);
  save_to_file report "network_report.json";;
  print w [Lit (nl +:+ "Network Report Summary:")];;
  o ← lift (getitem report "organization");
  print w [Lit "  Organization: "; Fmt o];;
  n ← lift (getitem report "network");
  print w [Lit "  Network: "; Fmt n];;
  sm ← lift (getitem report "summary");
  total ← lift (getitem sm "total_devices");
  print w [Lit "  Total Devices: "; Fmt total];;
  sm ← lift (getitem report "summary");
  online ← lift (getitem sm "online_devices");
  print w [Lit "  Online: "; Fmt online];;
  sm ← lift (getitem report "summary");
  offline ← lift (getitem sm "offline_devices");
  print w [Lit "  Offline: "; Fmt offline];;
  sm ← lift (getitem report "summary");
  avail ← lift (getitem sm "availability_percentage");
  print w [Lit "  Availability: "; Fmt avail; Lit "%"].

(** The part of [main] that follows the call of [get_network_inventory]:
    there is no test on [devices]. *)
Definition main_devices (first_org first_network devices : value) : prog unit :=
  n ← lift (py_len devices);
  print w [Lit "Devices: "; Fmt (VInt n); Lit " found"];;
  save_to_file devices "devices.json";;
  print w [Lit (nl +:+ "Fetching device status information...")];;
  org_id ← lift (getitem first_org "id");
  statuses ← get_device_statuses org_id;
  if truthy statuses then
    report_and_summary first_org first_network devices statuses
  else
    print w [Lit "Unable to retrieve device status information."].

(** The part of [main] that follows a non-empty [networks]. *)
Definition main_network (first_org networks : value) : prog unit :=
  save_to_file networks "networks.json";;
  first_network ← lift (getitem0 networks);
  network_name ← lift (getitem first_network "name");
  print w [Lit "Network: "; Fmt network_name];;
  network_id ← lift (getitem first_network "id");
  devices ← get_network_inventory network_id;
  main_devices first_org first_network devices.

(** The part of [main] that follows a non-empty [organizations]. *)
Definition main_organization (organizations : value) : prog unit :=
  save_to_file organizations "organizations.json";;
  first_org ← lift (getitem0 organizations);
  org_name ← lift (getitem first_org "name");
  print w [Lit "Organization: "; Fmt org_name];;
  org_id ← lift (getitem first_org "id");
  networks ← get_networks org_id;
  if negb (truthy networks) then
    print w [Lit "No networks found."]
  else
    main_network first_org networks.

Definition main : prog unit :=
  try_except
    (print w [Lit "Fetching Meraki organization data..."];;
     organizations ← get_organizations;
     if negb (truthy organizations) then
       print w [Lit "No organizations found or API error occurred."]
     else
       main_organization organizations)
    [ (Exception, λ e, print w [Lit "Error: "; FmtExn e]) ].

End Script.

(** The five resource fetchers under one name, with the endpoint each one
    asks for. *)
Inductive fetcher :=
| Organizations
| Networks (org_id : value)
| NetworkInventory (network_id : value)
| DeviceAvailabilities (network_id serial : value)
| DeviceStatuses (org_id : value).

Definition fetch (w : World) (f : fetcher) : prog value :=
  match f with
  | Organizations => get_organizations w
  | Networks org_id => get_networks w org_id
  | NetworkInventory network_id => get_network_inventory w network_id
  | DeviceAvailabilities network_id serial =>
      get_device_availabilities w network_id serial
  | DeviceStatuses org_id => get_device_statuses w org_id
  end.

Definition fetcher_endpoint (f : fetcher) : text :=
  match f with
  | Organizations => [Lit "/organizations"]
  | Networks org_id => [Lit "/organizations/"; Fmt org_id; Lit "/networks"]
  | NetworkInventory network_id =>
      [Lit "/networks/"; Fmt network_id; Lit "/devices"]
  | DeviceAvailabilities network_id serial =>
      [Lit "/networks/"; Fmt network_id; Lit "/devices/"; Fmt serial;
       Lit "/availabilities"]
  | DeviceStatuses org_id =>
      [Lit "/organizations/"; Fmt org_id; Lit "/devices/statuses"]
  end.

(** The requests sent and the files written in a trace. *)
Definition http_requests (t : list event) : list text :=
  omap (λ e, match e with HttpGet url _ => Some url | _ => None end) t.

Definition file_writes (t : list event) : list string :=
  omap (λ e, match e with WriteFile filename _ => Some filename | _ => None end) t.

(** The run of [main] reaches the call of [get_networks], with the events
    [pre] behind it: the organizations were fetched and saved, and the name
    of the first one was printed. *)
Definition reaches_get_networks (w : World) (pre : list event)
    (first_org org_id : value) : Prop :=
  ∃ t organizations ts b org_name,
    get_organizations w = (t, Ok organizations) ∧
    truthy organizations = true ∧
    save_to_file w organizations "organizations.json" = (ts, Ok b) ∧
    getitem0 organizations = Ok first_org ∧
    getitem first_org "name" = Ok org_name ∧
    format_error w org_name = None ∧
    getitem first_org "id" = Ok org_id ∧
    pre = Print [Lit "Fetching Meraki organization data..."] :: t ++ ts ++
          [Print [Lit "Organization: "; Fmt org_name]].

(** The run of [main] reaches the call of [get_network_inventory], with
    the events [pre] behind it: the networks were fetched and saved, and
    the name of the first one was printed. *)
Definition reaches_get_network_inventory (w : World) (pre : list event)
    (first_org org_id first_network network_id : value) : Prop :=
  ∃ pre0 t networks ts b network_name,
    reaches_get_networks w pre0 first_org org_id ∧
    get_networks w org_id = (t, Ok networks) ∧
    truthy networks = true ∧
    save_to_file w networks "networks.json" = (ts, Ok b) ∧
    getitem0 networks = Ok first_network ∧
    getitem first_network "name" = Ok network_name ∧
    format_error w network_name = None ∧
    getitem first_network "id" = Ok network_id ∧
    pre = pre0 ++ t ++ ts ++ [Print [Lit "Network: "; Fmt network_name]].

(** The run of [main] reaches the call of [get_device_statuses], with the
    events [pre] behind it: the devices were fetched, counted and saved. *)
Definition reaches_get_device_statuses (w : World) (pre : list event)
    (first_org first_network devices org_id : value) : Prop :=
  ∃ pre0 network_id t n ts b,
    reaches_get_network_inventory w pre0 first_org org_id
      first_network network_id ∧
    get_network_inventory w network_id = (t, Ok devices) ∧
    py_len devices = Ok n ∧
    save_to_file w devices "devices.json" = (ts, Ok b) ∧
    pre = pre0 ++ t ++ [Print [Lit "Devices: "; Fmt (VInt n); Lit " found"]] ++
          ts ++ [Print [Lit (nl +:+ "Fetching device status information...")]].

(** ** Vocabulary of the statements *)

(** A list of JSON objects as the value the functions receive. *)
Definition dicts (l : list dict) : value := VList (VDict <$> l).

(** The record carries the serial [k], up to the equality dict keys use. *)
Definition has_serial (k : key) (r : dict) : bool :=
  match r !! "serial" with
  | Some v =>
      match hash_key v with
      | Ok k' => bool_decide (k' = k)
      | Raise _ => false
      end
  | None => false
  end.

Definition has_key (f : string) (r : dict) : bool :=
  bool_decide (is_Some (r !! f)).

Definition hashable (v : value) : bool :=
  match v with
  | VList _ | VDict _ => false
  | _ => true
  end.

(** The ['serial'] of the record, if it has one, can be a dict key. *)
Definition serial_hashable (r : dict) : bool :=
  match r !! "serial" with
  | Some v => hashable v
  | None => true
  end.

(** Every device has a ['serial'], and every status record that has a
    ['serial'] has a ['status']. *)
Definition keys_present (D S : list dict) : bool :=
  forallb (has_key "serial") D &&
  forallb (λ s, implb (has_key "serial" s) (has_key "status" s)) S.

Definition serials_hashable (D S : list dict) : bool :=
  forallb serial_hashable (D ++ S).

End Python.

(** * Further vocabulary and the earlier stages of the script *)

(** [for x in l: body x]. *)
Fixpoint for_each {M : Type → Type} `{!MBind M, !MRet M} {A}
    (body : A → M unit) (l : list A) : M unit :=
  match l with
  | [] => mret tt
  | a :: l' => body a;; for_each body l'
  end.

Section MoreVocabulary.
Context {float : Type} `{!EqDecision float, !Countable float, !PyFloat float}.

Abbreviation value := (value (float := float)).
Abbreviation dict := (gmap string value).
Abbreviation event := (event (float := float)).
Abbreviation prog := (prog (float := float)).
Abbreviation World := (World (float := float)).

(** The dict key a record's ['serial'] makes, when it has one that can be
    a key. *)
Definition serial_key (r : dict) : option key :=
  match r !! "serial" with
  | Some v =>
      match hash_key v with
      | Ok k => Some k
      | Raise _ => None
      end
  | None => None
  end.

(** The serials of a list of records, as dict keys, in list order. *)
Definition serial_keys (l : list dict) : list key := omap serial_key l.

(** The entries the status records put into the lookup, in list order. *)
Definition status_entries (l : list dict) : list (key * value) :=
  omap (λ s, k ← serial_key s; v ← s !! "status"; Some (k, v)) l.

(** Every status record that has a ['serial'] has a ['status']. *)
Definition statuses_complete (S : list dict) : bool :=
  forallb (λ s, implb (has_key "serial" s) (has_key "status" s)) S.

(** [v.get(s, d)] for a string literal [s]: of the JSON values only the
    dicts have the method. *)
Definition py_get (v : value) (s : string) (d : value) : result value :=
  match v with
  | VDict m => Ok (default d (m !! s))
  | _ => Raise (PyExn AttributeError "object has no attribute 'get'")
  end.

(** [v.upper()]: of the JSON values only the strings have the method; the
    case mapping [upper] is the interpreter's. *)
Definition py_upper (upper : string → string) (v : value) : result string :=
  match v with
  | VStr s => Ok (upper s)
  | _ => Raise (PyExn AttributeError "object has no attribute 'upper'")
  end.

(** The headers [get_headers] builds for an API key. *)
Definition api_headers (api_key : string) : dict :=
  {[ "X-Cisco-Meraki-API-Key" := VStr api_key;
     "Content-Type" := VStr "application/json" ]}.

(** The message [make_api_request] prints for an exception it catches:
    the first [except] clause that matches decides. *)
Definition request_error_message (e : exn) : string :=
  if isinstance e HTTPError then "HTTP error occurred: "
  else if isinstance e RequestException then "Request error occurred: "
  else "Unexpected error: ".

(** An exception an [except Exception] clause catches. *)
Definition catchable (e : exn) : bool := isinstance e Exception.

(** Every event of the computation satisfies [P], and an exception it ends
    with satisfies [Q]. *)
Definition prog_within {A} (P : event → Prop) (Q : exn → Prop) (m : prog A)
  : Prop :=
  Forall P m.1 ∧ ∀ e, m.2 = Raise e → Q e.

(** The computation sends no request. *)
Definition sends_nothing {A} (m : prog A) : Prop := http_requests m.1 = [].

(** The value can be formatted into a line that [print] writes. *)
Definition printable (w : World) (v : value) : bool :=
  match format_error w v with
  | None => true
  | Some _ => false
  end.

(** A merged record the status stage can list: it has a ['model'], its
    ['status'] is a string, and the four values of its line can be
    printed: the mark, the name (or ["Unnamed"]), the model and the status
    in upper case. *)
Definition listable (upper : string → string) (w : World) (o : dict) : bool :=
  match o !! "status", o !! "model" with
  | Some (VStr s), Some model =>
      printable w (VStr (if String.eqb s "online" then "✓" else "✗")) &&
      printable w (default (VStr "Unnamed") (o !! "name")) &&
      printable w model &&
      printable w (VStr (upper s))
  | _, _ => false
  end.

(** A record the listing stage can list by name and id. *)
Definition named (o : dict) : bool := has_key "name" o && has_key "id" o.

(** The name and the id of the record, where it has them, can be
    printed. *)
Definition name_and_id_printable (w : World) (o : dict) : bool :=
  from_option (printable w) true (o !! "name") &&
  from_option (printable w) true (o !! "id").

(** The data a run of the complete script works on, as the dashboard
    gives them: the first organization and its networks, the first network
    and its devices, the statuses of the organization, and the report
    built from them.  (The world answers a request the same way every time
    it is asked.) *)
Definition first_organization (w : World) : result value :=
  organizations ← (get_organizations w).2;
  getitem0 organizations.

Definition fetched_networks (w : World) : result value :=
  first_org ← first_organization w;
  org_id ← getitem first_org "id";
  (get_networks w org_id).2.

Definition first_fetched_network (w : World) : result value :=
  networks ← fetched_networks w;
  getitem0 networks.

Definition fetched_devices (w : World) : result value :=
  first_network ← first_fetched_network w;
  network_id ← getitem first_network "id";
  (get_network_inventory w network_id).2.

Definition fetched_statuses (w : World) : result value :=
  first_org ← first_organization w;
  org_id ← getitem first_org "id";
  (get_device_statuses w org_id).2.

Definition built_report (w : World) : result value :=
  first_org ← first_organization w;
  org_name ← getitem first_org "name";
  first_network ← first_fetched_network w;
  network_name ← getitem first_network "name";
  devices ← fetched_devices w;
  statuses ← fetched_statuses w;
  generate_network_report w org_name network_name devices statuses.

(** What every stage of the script may do besides printing: send a
    request to an endpoint of the dashboard, with the headers
    [get_headers] builds. *)
Inductive traffic (w : World) : event → Prop :=
| traffic_print t : traffic w (Print t)
| traffic_request endpoint headers :
    get_headers w = Ok headers →
    traffic w (HttpGet (Lit base_url :: endpoint) headers).

(** What the complete script may do: the same, and write one of its four
    files, each with the data of the run that belong under its name: the
    organizations, the networks of the first organization, the devices of
    its first network, and the report on these devices and the statuses of
    the organization. *)
Inductive footprint (w : World) : event → Prop :=
| footprint_traffic ev : traffic w ev → footprint w ev
| footprint_organizations data :
    (get_organizations w).2 = Ok data →
    footprint w (WriteFile "organizations.json" data)
| footprint_networks data :
    fetched_networks w = Ok data →
    footprint w (WriteFile "networks.json" data)
| footprint_devices data :
    fetched_devices w = Ok data →
    footprint w (WriteFile "devices.json" data)
| footprint_report data :
    built_report w = Ok data →
    footprint w (WriteFile "network_report.json" data).

End MoreVocabulary.

(** ** task-2/main.py: the listing stage

    [get_api_key], [get_headers], [make_api_request] and the fetchers it
    calls are those of the complete script. *)
Module Task2.
Section Script.
Context {float : Type} `{!EqDecision float, !Countable float, !PyFloat float}.
Variable w : World (float := float).

(** The body of [for org in organizations] and of [for net in networks]. *)
Definition print_name_and_id (x : value (float := float)) : prog unit :=
  name ← lift (getitem x "name");
  id ← lift (getitem x "id");
  print w [Lit "  - "; Fmt name; Lit " (ID: "; Fmt id; Lit ")"].

(** The body of [for device in devices]. *)
Definition print_device (device : value (float := float)) : prog unit :=
  name ← lift (py_get device "name" (VStr "Unnamed"));
  model ← lift (getitem device "model");
  serial ← lift (getitem device "serial");
  print w [Lit "  - "; Fmt name; Lit " ("; Fmt model; Lit ") - "; Fmt serial].

(** The part of [main] that follows a non-empty [networks]. *)
Definition main_network (networks : value (float := float)) : prog unit :=
  n ← lift (py_len networks);
  print w [Lit "Found "; Fmt (VInt n); Lit " network(s):"];;
  nets ← lift (py_iter networks);
  for_each print_name_and_id nets;;
  first_network ← lift (getitem0 networks);
  network_name ← lift (getitem first_network "name");
  print w [Lit (nl +:+ "Fetching device inventory for "); Fmt network_name; Lit "..."];;
  network_id ← lift (getitem first_network "id");
  devices ← get_network_inventory w network_id;
  if truthy devices then
    n ← lift (py_len devices);
    print w [Lit "Found "; Fmt (VInt n); Lit " device(s):"];;
    ds ← lift (py_iter devices);
    for_each print_device ds
  else
    print w [Lit "No devices found or network has no inventory."].

(** The part of [main] that follows a non-empty [organizations]. *)
Definition main_organization (organizations : value (float := float))
  : prog unit :=
  n ← lift (py_len organizations);
  print w [Lit (nl +:+ "Found "); Fmt (VInt n); Lit " organization(s):"];;
  orgs ← lift (py_iter organizations);
  for_each print_name_and_id orgs;;
  first_org ← lift (getitem0 organizations);
  org_name ← lift (getitem first_org "name");
  print w [Lit (nl +:+ "Fetching networks for "); Fmt org_name; Lit "..."];;
  org_id ← lift (getitem first_org "id");
  networks ← get_networks w org_id;
  if negb (truthy networks) then
    print w [Lit "No networks found."]
  else
    main_network networks.

Definition main : prog unit :=
  try_except
    (print w [Lit "Fetching Meraki organization data..."];;
     organizations ← get_organizations w;
     if negb (truthy organizations) then
       print w [Lit "No organizations found or API error occurred."]
     else
       main_organization organizations)
    [ (Exception, λ e, print w [Lit "Error: "; FmtExn e]) ].

End Script.
End Task2.

(** ** task-3/main.py: the status stage

    The functions it calls, [get_device_statuses] and [get_device_details]
    among them, are those of the complete script. *)
Module Task3.
Section Script.
Context {float : Type} `{!EqDecision float, !Countable float, !PyFloat float}.
Variable upper : string → string.
Variable w : World (float := float).

(** The body of [for device in detailed_devices].  The mark is the one
    piece of text in the scripts that is not ASCII: it is formatted into
    the line like a value, and the stream decides whether it can be
    written. *)
Definition print_device_status (device : value (float := float)) : prog unit :=
  st ← lift (getitem device "status");
  let status_indicator := if eq_str st "online" then "✓" else "✗" in
  name ← lift (py_get device "name" (VStr "Unnamed"));
  model ← lift (getitem device "model");
  st ← lift (getitem device "status");
  shout ← lift (py_upper upper st);
  print w [Lit "  ["; Fmt (VStr status_indicator); Lit "] "; Fmt name;
           Lit " - "; Fmt model; Lit " - "; Fmt (VStr shout)].

(** The part of [main] under [if statuses:]. *)
Definition status_summary (devices statuses : value (float := float))
  : prog unit :=
  detailed_devices ← lift (get_device_details devices statuses);
  print w [Lit (nl +:+ "Device Status Summary:")];;
  ds ← lift (py_iter detailed_devices);
  online_count ← lift (count_status "online" ds);
  ds ← lift (py_iter detailed_devices);
  offline_count ← lift (count_status "offline" ds);
  print w [Lit "  Online: "; Fmt (VInt online_count); Lit " devices"];;
  print w [Lit "  Offline: "; Fmt (VInt offline_count); Lit " devices"];;
  print w [Lit (nl +:+ "Detailed Device Status:")];;
  ds ← lift (py_iter detailed_devices);
  for_each print_device_status ds.

(** The part of [main] that follows a non-empty [networks]. *)
Definition main_network (first_org networks : value (float := float))
  : prog unit :=
  first_network ← lift (getitem0 networks);
  network_name ← lift (getitem first_network "name");
  print w [Lit "Network: "; Fmt network_name];;
  network_id ← lift (getitem first_network "id");
  devices ← get_network_inventory w network_id;
  n ← lift (py_len devices);
  print w [Lit "Devices: "; Fmt (VInt n); Lit " found"];;
  print w [Lit (nl +:+ "Fetching device status information...")];;
  org_id ← lift (getitem first_org "id");
  statuses ← get_device_statuses w org_id;
  if truthy statuses then
    status_summary devices statuses
  else
    print w [Lit "Unable to retrieve device status information."].

(** The part of [main] that follows a non-empty [organizations]. *)
Definition main_organization (organizations : value (float := float))
  : prog unit :=
  first_org ← lift (getitem0 organizations);
  org_name ← lift (getitem first_org "name");
  print w [Lit "Organization: "; Fmt org_name];;
  org_id ← lift (getitem first_org "id");
  networks ← get_networks w org_id;
  if negb (truthy networks) then
    print w [Lit "No networks found."]
  else
    main_network first_org networks.

Definition main : prog unit :=
  try_except
    (print w [Lit "Fetching Meraki organization data..."];;
     organizations ← get_organizations w;
     if negb (truthy organizations) then
       print w [Lit "No organizations found or API error occurred."]
     else
       main_organization organizations)
    [ (Exception, λ e, print w [Lit "Error: "; FmtExn e]) ].

End Script.
End Task3.

(** * Example data

    Concrete devices, statuses and worlds, on binary64 floats, for the
    worked examples that close the development. *)

Abbreviation json := (value (float := spec_float)).
Abbreviation object := (gmap string json).

(** The devices and statuses of the scenario in the specification. *)
Definition device_A : object := {[ "serial" := VStr "A"; "model" := VStr "X" ]}.
Definition device_B : object := {[ "serial" := VStr "B"; "model" := VStr "Y" ]}.
Definition status_A_online : object :=
  {[ "serial" := VStr "A"; "status" := VStr "online" ]}.
Definition status_A_offline : object :=
  {[ "serial" := VStr "A"; "status" := VStr "offline" ]}.

Definition scenario_devices : list object := [device_A; device_B].
Definition scenario_statuses : list object := [status_A_online].
Definition scenario_detailed : list object :=
  [<["status" := VStr "online"]> device_A;
   <["status" := VStr "unknown"]> device_B].

(** [50.0] is [7036874417766400 * 2^-47]. *)
Definition scenario_summary : object :=
  {[ "total_devices" := VInt 2;
     "online_devices" := VInt 1;
     "offline_devices" := VInt 0;
     "availability_percentage" :=
       VFloat (S754_finite false 7036874417766400 (-47)) ]}.

Definition scenario_report : json :=
  VDict {[ "timestamp" := VStr "2024-05-01T12:00:00";
           "organization" := VStr "Org";
           "network" := VStr "Site";
           "summary" := VDict scenario_summary;
           "devices" := dicts scenario_detailed ]}.

(** The report on a network without devices. *)
Definition empty_report : json :=
  VDict {[ "timestamp" := VStr "2024-05-01T12:00:00";
           "organization" := VStr "Org";
           "network" := VStr "Site";
           "summary" :=
             VDict {[ "total_devices" := VInt 0;
                      "online_devices" := VInt 0;
                      "offline_devices" := VInt 0;
                      "availability_percentage" := VInt 0 ]};
           "devices" := VList [] ]}.

(** A device whose serial is a JSON array. *)
Definition device_list_serial : object :=
  {[ "serial" := VList [VStr "A"]; "model" := VStr "X" ]}.

Definition demo_org : object := {[ "id" := VStr "1001"; "name" := VStr "Org" ]}.
Definition demo_network : object := {[ "id" := VStr "N_1"; "name" := VStr "Site" ]}.

(** What the dashboard answers on each of the four endpoints [main] asks. *)
Record answers := {
  organizations : result json;
  networks : result json;
  devices : result json;
  statuses : result json;
}.

(** A URL with its formatted fields blanked out. *)
Definition skeleton (url : list (frag (float := spec_float))) : string :=
  foldr (λ f acc, match f with Lit s => s +:+ acc | _ => "{}" +:+ acc end) "" url.

Definition demo_http (a : answers) (url : list frag) (_ : object) : result json :=
  let sk := skeleton url in
  if String.eqb sk (base_url +:+ "/organizations") then organizations a
  else if String.eqb sk (base_url +:+ "/organizations/{}/networks") then networks a
  else if String.eqb sk (base_url +:+ "/networks/{}/devices") then devices a
  else if String.eqb sk (base_url +:+ "/organizations/{}/devices/statuses")
  then statuses a
  else Raise (PyExn HTTPError "404 Client Error: Not Found").

(** A stream with the UTF-8 encoding and the strict error handler, as
    [sys.stdout] has them by default: it has every character but the
    surrogates, whose three bytes begin with [ED] and a byte from [A0] on.
    The text of a list or a dict escapes them. *)
Fixpoint has_surrogate (s : string) : bool :=
  match s with
  | String c s' =>
      match s' with
      | String c' _ =>
          Nat.eqb (Ascii.nat_of_ascii c) 237 &&
          Nat.leb 160 (Ascii.nat_of_ascii c') || has_surrogate s'
      | EmptyString => false
      end
  | EmptyString => false
  end.

Definition utf8_stdout (v : json) : option string :=
  match v with
  | VStr s =>
      if has_surrogate s
      then Some "'utf-8' codec can't encode character: surrogates not allowed"
      else None
  | _ => None
  end.

Definition demo_world (api_key : option string) (a : answers)
    (fs : string → json → option exn) : World := {|
  environ := match api_key with
             | Some k => {[ "MERAKI_API_KEY" := k ]}
             | None => ∅
             end;
  http := demo_http a;
  fs_write := fs;
  now_isoformat := "2024-05-01T12:00:00";
  stdout_error := utf8_stdout;
|}.

Definition writable : string → json → option exn := λ _ _, None.
Definition read_only : string → json → option exn :=
  λ _ _, Some (PyExn PermissionError "[Errno 13] Permission denied").

Definition demo_headers : object :=
  {[ "X-Cisco-Meraki-API-Key" := VStr "secret";
     "Content-Type" := VStr "application/json" ]}.

Definition unauthorized : exn := PyExn HTTPError "401 Client Error: Unauthorized".

Definition full_answers : answers := {|
  organizations := Ok (dicts [demo_org]);
  networks := Ok (dicts [demo_network]);
  devices := Ok (dicts scenario_devices);
  statuses := Ok (dicts scenario_statuses);
|}.

(** A dashboard that answers everything, with a writable and with a
    read-only working directory, and without an API key. *)
Definition w_full : World := demo_world (Some "secret") full_answers writable.
Definition w_read_only : World := demo_world (Some "secret") full_answers read_only.
Definition w_no_key : World := demo_world None full_answers writable.

(** Dashboards with one empty answer each. *)
Definition w_no_organizations : World :=
  demo_world (Some "secret")
    {| organizations := Raise unauthorized; networks := Ok (dicts [demo_network]);
       devices := Ok (dicts scenario_devices);
       statuses := Ok (dicts scenario_statuses) |}
    writable.

Definition w_no_networks : World :=
  demo_world (Some "secret")
    {| organizations := Ok (dicts [demo_org]); networks := Ok (VList []);
       devices := Ok (dicts scenario_devices);
       statuses := Ok (dicts scenario_statuses) |}
    writable.

Definition w_no_statuses : World :=
  demo_world (Some "secret")
    {| organizations := Ok (dicts [demo_org]); networks := Ok (dicts [demo_network]);
       devices := Ok (dicts scenario_devices); statuses := Ok (VList []) |}
    writable.

Definition w_no_devices : World :=
  demo_world (Some "secret")
    {| organizations := Ok (dicts [demo_org]); networks := Ok (dicts [demo_network]);
       devices := Ok (VList []); statuses := Ok (dicts scenario_statuses) |}
    writable.

(** A dashboard that answers the organizations request with an empty JSON
    object and the networks request with an empty JSON array. *)
Definition w_empty_answers : World :=
  demo_world (Some "secret")
    {| organizations := Ok (VDict ∅); networks := Ok (VList []);
       devices := Ok (VList []); statuses := Ok (VList []) |}
    writable.

(** Pieces of the traces of these runs. *)
Definition get_event (endpoint : list frag) : event :=
  HttpGet (Lit base_url :: endpoint) demo_headers.

Definition saved_events (filename : string) (data : json) : list event :=
  [WriteFile filename data; Print [Lit "Data saved to "; Lit filename]].

Definition networks_request : list event :=
  [get_event [Lit "/organizations/"; Fmt (VStr "1001"); Lit "/networks"]].

Definition inventory_request : list event :=
  [get_event [Lit "/networks/"; Fmt (VStr "N_1"); Lit "/devices"]].

Definition statuses_request : list event :=
  [get_event [Lit "/organizations/"; Fmt (VStr "1001"); Lit "/devices/statuses"]].

(** The events of a run up to the call of [get_networks]. *)
Definition events_to_networks : list event :=
  [Print [Lit "Fetching Meraki organization data..."];
   get_event [Lit "/organizations"]] ++
  saved_events "organizations.json" (dicts [demo_org]) ++
  [Print [Lit "Organization: "; Fmt (VStr "Org")]].

(** The events of a run up to the call of [get_network_inventory]. *)
Definition events_to_inventory : list event :=
  events_to_networks ++ networks_request ++
  saved_events "networks.json" (dicts [demo_network]) ++
  [Print [Lit "Network: "; Fmt (VStr "Site")]].

(** The events of a run up to the call of [get_device_statuses], for the
    inventory [devices] of [n] devices. *)
Definition events_to_statuses (devices : json) (n : Z) : list event :=
  events_to_inventory ++
  inventory_request ++
  [Print [Lit "Devices: "; Fmt (VInt n); Lit " found"]] ++
  saved_events "devices.json" devices ++
  [Print [Lit (nl +:+ "Fetching device status information...")]].

(** ** Further example data *)

Definition status_B_offline : object :=
  {[ "serial" := VStr "B"; "status" := VStr "offline" ]}.

(** A device without a ['serial'], and one without a ['model']. *)
Definition device_no_serial : object := {[ "model" := VStr "Z" ]}.
Definition device_no_model : object := {[ "serial" := VStr "C" ]}.

(** An organization record without a ['name']. *)
Definition org_no_name : object := {[ "id" := VStr "1002" ]}.

(** Upper case on ASCII letters, for the examples of the status stage. *)
Definition upper_ascii (c : Ascii.ascii) : Ascii.ascii :=
  let n := Ascii.nat_of_ascii c in
  if Nat.leb 97 n && Nat.leb n 122 then Ascii.ascii_of_nat (n - 32) else c.

Fixpoint upper_string (s : string) : string :=
  match s with
  | EmptyString => EmptyString
  | String c s' => String (upper_ascii c) (upper_string s')
  end.

Definition interrupt : exn := PyExn KeyboardInterrupt "".

(** A dashboard whose first request is interrupted from the keyboard. *)
Definition w_interrupted : World :=
  demo_world (Some "secret")
    {| organizations := Raise interrupt; networks := Ok (dicts [demo_network]);
       devices := Ok (dicts scenario_devices);
       statuses := Ok (dicts scenario_statuses) |}
    writable.

(** A name that is one lone surrogate, as [json.loads] makes it of the
    escape [\ud800]: one character that UTF-8 cannot encode. *)
Definition lone_surrogate : string :=
  String (Ascii.ascii_of_nat 237)
    (String (Ascii.ascii_of_nat 160) (String (Ascii.ascii_of_nat 128) "")).

Definition org_unprintable : object :=
  {[ "id" := VStr "1000"; "name" := VStr lone_surrogate ]}.

Definition device_unprintable : object :=
  {[ "serial" := VStr "D"; "model" := VStr "W";
     "name" := VStr lone_surrogate ]}.

(** A dashboard whose second organization has no name. *)
Definition w_unnamed_organization : World :=
  demo_world (Some "secret")
    {| organizations := Ok (dicts [demo_org; org_no_name]);
       networks := Ok (dicts [demo_network]);
       devices := Ok (dicts scenario_devices);
       statuses := Ok (dicts scenario_statuses) |}
    writable.

(** A dashboard whose first organization has a name that cannot be
    printed, and whose second organization has no name. *)
Definition w_unprintable_organization : World :=
  demo_world (Some "secret")
    {| organizations := Ok (dicts [org_unprintable; org_no_name]);
       networks := Ok (dicts [demo_network]);
       devices := Ok (dicts scenario_devices);
       statuses := Ok (dicts scenario_statuses) |}
    writable.

(** * Properties *)

Section Properties.
Context {float : Type} `{!EqDecision float, !Countable float, !PyFloat float}.

Abbreviation value := (value (float := float)).
Abbreviation dict := (gmap string value).
Abbreviation event := (event (float := float)).
Abbreviation prog := (prog (float := float)).
Abbreviation World := (World (float := float)).
Abbreviation fetcher := (fetcher (float := float)).

(** ** The result monad *)

Lemma bind_Ok {A B} (m : result A) (f : A → result B) b :
  m ≫= f = Ok b ↔ ∃ a, m = Ok a ∧ f a = Ok b.
Proof.
  destruct m as [a|e]; simpl; split.
  - intros E. by exists a.
  - by intros (a' & [= ->] & E).
  - done.
  - by intros (a' & [=] & _).
Qed.

Lemma mapM_result_Ok {A B} (f : A → result B) l out :
  mapM_result f l = Ok out ↔ Forall2 (λ a b, f a = Ok b) l out.
Proof.
  revert out. induction l as [|a l IH]; intros out; simpl.
  - split; [intros [= <-]; constructor | by inversion 1].
  - split.
    + intros (b & Eb & (bs & Ebs & [= <-])%bind_Ok)%bind_Ok.
      constructor; [done | by apply IH].
    + inversion 1 as [|? b ? bs Eb Ebs]; subst.
      apply bind_Ok. exists b. split; [done |].
      apply bind_Ok. exists bs. split; [by apply IH | done].
Qed.

Lemma hash_key_hashable v : hashable v = true ↔ ∃ k, hash_key v = Ok k.
Proof.
  destruct v; simpl; split; try done; try (by intros [? [=]]); eauto.
Qed.

(** ** The status lookup *)

Lemma build_status_lookup_app l1 l2 acc :
  build_status_lookup (l1 ++ l2) acc =
  build_status_lookup l1 acc ≫= build_status_lookup l2.
Proof.
  revert acc. induction l1 as [|s l1 IH]; intros acc; [done |].
  simpl. destruct (py_in "serial" s) as [[]|]; simpl; [| by apply IH | done].
  destruct (getitem s "serial") as [k|]; simpl; [| done].
  destruct (getitem s "status") as [v|]; simpl; [| done].
  destruct (hash_key k) as [h|]; simpl; [| done].
  apply IH.
Qed.

(** One step of the comprehension on a JSON object. *)
Lemma build_status_lookup_cons (s : dict) rest acc :
  build_status_lookup (VDict s :: rest) acc =
  match s !! "serial" with
  | None => build_status_lookup rest acc
  | Some k =>
      match s !! "status" with
      | None => Raise (PyExn KeyError "status")
      | Some v => h ← hash_key k; build_status_lookup rest (<[h := v]> acc)
      end
  end.
Proof.
  simpl. destruct (s !! "serial") as [k|] eqn:Ek; simpl.
  - by destruct (s !! "status").
  - done.
Qed.

Lemma build_status_lookup_absent (S : list dict) k : ∀ acc lk,
  build_status_lookup (VDict <$> S) acc = Ok lk →
  Forall (λ s, has_serial k s = false) S →
  lk !! k = acc !! k.
Proof.
  induction S as [|s S IH]; intros acc lk E HS.
  - by injection E as <-.
  - rewrite fmap_cons, build_status_lookup_cons in E.
    apply Forall_cons in HS as [Hs HS]. unfold has_serial in Hs.
    destruct (s !! "serial") as [v|]; [| by eapply IH].
    destruct (s !! "status") as [st|]; [| done].
    destruct (hash_key v) as [h|]; [| done]. simpl in E.
    rewrite (IH _ _ E HS). apply lookup_insert_ne.
    by apply bool_decide_eq_false in Hs.
Qed.

Lemma build_status_lookup_last (S1 S2 : list dict) s k st acc lk :
  build_status_lookup (VDict <$> (S1 ++ s :: S2)) acc = Ok lk →
  has_serial k s = true →
  s !! "status" = Some st →
  Forall (λ s', has_serial k s' = false) S2 →
  lk !! k = Some st.
Proof.
  intros E Hs Hst HS2.
  rewrite fmap_app, build_status_lookup_app in E.
  apply bind_Ok in E as (lk1 & _ & E).
  rewrite fmap_cons, build_status_lookup_cons in E.
  unfold has_serial in Hs.
  destruct (s !! "serial") as [v|]; [| done]. rewrite Hst in E.
  destruct (hash_key v) as [h|]; [| done]. simpl in E.
  apply bool_decide_eq_true in Hs as ->.
  rewrite (build_status_lookup_absent _ _ _ _ E HS2).
  apply lookup_insert_eq.
Qed.

(** Under the precondition of the no-raise property the comprehension
    completes, whatever the accumulator. *)
Lemma build_status_lookup_total (S : list dict) : ∀ acc,
  Forall (λ s, has_key "serial" s = true →
               serial_hashable s = true ∧ has_key "status" s = true) S →
  ∃ lk, build_status_lookup (VDict <$> S) acc = Ok lk.
Proof.
  induction S as [|s S IH]; intros acc HS; [by eexists |].
  apply Forall_cons in HS as [Hs HS].
  rewrite fmap_cons, build_status_lookup_cons.
  unfold has_key, serial_hashable in Hs.
  destruct (s !! "serial") as [v|]; [| by apply IH].
  destruct Hs as [Hv Hst]; [by apply bool_decide_eq_true; eauto |].
  apply bool_decide_eq_true in Hst as [st ->].
  apply hash_key_hashable in Hv as [h ->]. simpl. by apply IH.
Qed.

(** Records without a ['serial'] are skipped by the comprehension. *)
Lemma build_status_lookup_filter (S : list dict) : ∀ acc,
  build_status_lookup (VDict <$> filter (λ s, is_Some (s !! "serial")) S) acc =
  build_status_lookup (VDict <$> S) acc.
Proof.
  induction S as [|s S IH]; intros acc; [done |].
  rewrite filter_cons. case_decide as Hs.
  - rewrite !fmap_cons, !build_status_lookup_cons.
    destruct (s !! "serial"); [| by destruct Hs].
    destruct (s !! "status"); [| done].
    destruct (hash_key _); simpl; [apply IH | done].
  - rewrite fmap_cons, build_status_lookup_cons, IH.
    destruct (s !! "serial"); [destruct Hs; eauto | done].
Qed.

(** ** The loop body and the whole function on JSON objects *)

Lemma add_status_dict lk (d : dict) :
  add_status lk (VDict d) =
  match d !! "serial" with
  | None => Raise (PyExn KeyError "serial")
  | Some v =>
      h ← hash_key v;
      Ok (VDict (<["status" := default (VStr "unknown") (lk !! h)]> d))
  end.
Proof.
  unfold add_status, lookup_get. simpl.
  destruct (d !! "serial") as [v|]; simpl; [| done].
  by destruct (hash_key v).
Qed.

Lemma add_status_Ok lk (d : dict) o :
  add_status lk (VDict d) = Ok o →
  ∃ v h, d !! "serial" = Some v ∧ hash_key v = Ok h ∧
         o = VDict (<["status" := default (VStr "unknown") (lk !! h)]> d).
Proof.
  rewrite add_status_dict. destruct (d !! "serial") as [v|]; [| done].
  destruct (hash_key v) as [h|] eqn:Eh; simpl; [| done].
  intros [= <-]. eauto.
Qed.

Lemma get_device_details_dicts (D S : list dict) :
  get_device_details (dicts D) (dicts S) =
  status_lookup ← build_status_lookup (VDict <$> S) ∅;
  detailed_devices ← mapM_result (add_status status_lookup) (VDict <$> D);
  Ok (VList detailed_devices).
Proof. done. Qed.

Lemma get_device_details_Ok (D S : list dict) out :
  get_device_details (dicts D) (dicts S) = Ok out →
  ∃ lk outs,
    build_status_lookup (VDict <$> S) ∅ = Ok lk ∧
    out = VList outs ∧
    Forall2 (λ d o, add_status lk (VDict d) = Ok o) D outs.
Proof.
  rewrite get_device_details_dicts.
  intros (lk & Elk & (outs & Eouts & [= <-])%bind_Ok)%bind_Ok.
  exists lk, outs. split_and!; [done.. |].
  apply mapM_result_Ok in Eouts. by apply Forall2_fmap_l in Eouts.
Qed.

(** The status the [i]-th output record gets is read off the lookup. *)
Lemma get_device_details_lookup (D S : list dict) outs i d k :
  get_device_details (dicts D) (dicts S) = Ok (VList outs) →
  D !! i = Some d →
  has_serial k d = true →
  ∃ lk, build_status_lookup (VDict <$> S) ∅ = Ok lk ∧
        outs !! i = Some (VDict (<["status" := default (VStr "unknown") (lk !! k)]> d)).
Proof.
  intros (lk & outs' & Elk & [= <-] & HD)%get_device_details_Ok Hi Hk.
  exists lk. split; [done |].
  destruct (Forall2_lookup_l _ _ _ _ _ HD Hi) as (o & -> & Ho).
  apply add_status_Ok in Ho as (v & h & Ev & Eh & ->).
  unfold has_serial in Hk. rewrite Ev, Eh in Hk.
  by apply bool_decide_eq_true in Hk as ->.
Qed.

(** Every output record is its device with a ['status'] set. *)
Lemma add_status_outputs lk (D : list dict) outs :
  Forall2 (λ d o, add_status lk (VDict d) = Ok o) D outs →
  ∃ outs' : list dict,
    outs = VDict <$> outs' ∧
    Forall2 (λ d o, ∃ st, o = <["status" := st]> d) D outs'.
Proof.
  induction 1 as [|d o D outs Ho _ (outs' & -> & IH)].
  - by exists [].
  - apply add_status_Ok in Ho as (v & h & _ & _ & ->).
    eexists (_ :: outs'). split; [done |]. constructor; eauto.
Qed.

(** The status of a device is that of the last record with its serial. *)
Lemma status_of_last_record (D S : list dict) outs i d k j s st :
  get_device_details (dicts D) (dicts S) = Ok (VList outs) →
  D !! i = Some d →
  has_serial k d = true →
  S !! j = Some s →
  has_serial k s = true →
  s !! "status" = Some st →
  (∀ j' s', S !! j' = Some s' → has_serial k s' = true → j' ≤ j) →
  outs !! i = Some (VDict (<["status" := st]> d)).
Proof.
  intros E Hi Hk Hj Hs Hst Hlast.
  destruct (get_device_details_lookup _ _ _ _ _ _ E Hi Hk) as (lk & Elk & ->).
  rewrite <-(take_drop_middle _ _ _ Hj) in Elk.
  erewrite build_status_lookup_last; [done | exact Elk | done.. |].
  apply Forall_lookup. intros n s' Hn.
  destruct (has_serial k s') eqn:Hs'; [| done].
  rewrite lookup_drop in Hn. apply Hlast in Hn; [lia | done].
Qed.

(** C1: whenever [get_device_details] returns on a list of devices, the
    result is a list of records of the same length, in the same order, and
    each record agrees with its device on every field other than
    ['status'] (which it has). *)
Theorem get_device_details_preserves_devices (D S : list dict) out :
  get_device_details (dicts D) (dicts S) = Ok out →
  ∃ outs : list dict,
    out = dicts outs ∧
    length outs = length D ∧
    ∀ i d, D !! i = Some d →
      ∃ o, outs !! i = Some o ∧
           is_Some (o !! "status") ∧
           ∀ f, f ≠ "status" → o !! f = d !! f.
Proof.
  intros (lk & outs & _ & -> & HD)%get_device_details_Ok.
  apply add_status_outputs in HD as (outs' & -> & HD).
  exists outs'. split_and!; [done | by apply Forall2_length in HD |].
  intros i d Hi.
  destruct (Forall2_lookup_l _ _ _ _ _ HD Hi) as (o & Ho & st & ->).
  exists (<["status" := st]> d). split_and!; [done | |].
  - rewrite lookup_insert_eq. eauto.
  - intros f Hf. by apply lookup_insert_ne.
Qed.

(** C2: a device whose serial is carried by no status record gets the
    status ["unknown"]; a device whose serial is carried by exactly one
    status record gets that record's status. *)
Theorem get_device_details_status (D S : list dict) outs i d k :
  get_device_details (dicts D) (dicts S) = Ok (VList outs) →
  D !! i = Some d →
  has_serial k d = true →
  (Forall (λ s, has_serial k s = false) S →
   outs !! i = Some (VDict (<["status" := VStr "unknown"]> d))) ∧
  (∀ j s st,
     S !! j = Some s →
     has_serial k s = true →
     s !! "status" = Some st →
     (∀ j' s', S !! j' = Some s' → has_serial k s' = true → j' = j) →
     outs !! i = Some (VDict (<["status" := st]> d))).
Proof.
  intros E Hi Hk. split.
  - intros HS.
    destruct (get_device_details_lookup _ _ _ _ _ _ E Hi Hk) as (lk & Elk & ->).
    by rewrite (build_status_lookup_absent _ _ _ _ Elk HS), lookup_empty.
  - intros j s st Hj Hs Hst Honly.
    eapply status_of_last_record; [done.. |].
    intros j' s' Hj' Hs'. by rewrite (Honly _ _ Hj' Hs').
Qed.

(** C8: when several status records carry the serial of a device, the
    device gets the status of the last of them in the list. *)
Theorem get_device_details_last_write_wins (D S : list dict) outs i d k j s st :
  get_device_details (dicts D) (dicts S) = Ok (VList outs) →
  D !! i = Some d →
  has_serial k d = true →
  S !! j = Some s →
  has_serial k s = true →
  s !! "status" = Some st →
  (∀ j' s', S !! j' = Some s' → has_serial k s' = true → j' ≤ j) →
  outs !! i = Some (VDict (<["status" := st]> d)).
Proof. apply status_of_last_record. Qed.

Lemma keys_present_Forall (D S : list dict) :
  keys_present D S = true →
  Forall (λ d, has_key "serial" d = true) D ∧
  Forall (λ s, has_key "serial" s = true → has_key "status" s = true) S.
Proof.
  unfold keys_present. intros [HD HS]%andb_true_iff.
  split; apply Forall_forall; intros r Hr%list_elem_of_In.
  - by apply (proj1 (forallb_forall _ _) HD).
  - intros Hs. apply (proj1 (forallb_forall _ _) HS) in Hr.
    by rewrite Hs in Hr.
Qed.

Lemma serials_hashable_Forall (D S : list dict) :
  serials_hashable D S = true →
  Forall (λ r, serial_hashable r = true) D ∧
  Forall (λ r, serial_hashable r = true) S.
Proof.
  unfold serials_hashable. intros H.
  apply Forall_app, Forall_forall. intros r Hr%list_elem_of_In.
  by apply (proj1 (forallb_forall _ _) H).
Qed.

(** C9 (amended): [get_device_details] returns without raising whenever
    every device has a ['serial'], every status record that has a
    ['serial'] also has a ['status'], and every ['serial'] value is
    hashable. *)
Theorem get_device_details_no_raise (D S : list dict) :
  keys_present D S = true →
  serials_hashable D S = true →
  ∃ out, get_device_details (dicts D) (dicts S) = Ok out.
Proof.
  intros [HD HS]%keys_present_Forall [HhD HhS]%serials_hashable_Forall.
  rewrite get_device_details_dicts.
  destruct (build_status_lookup_total S ∅) as [lk ->].
  { apply Forall_forall. intros s Hin Hs.
    pose proof (proj1 (Forall_forall _ _) HS s Hin) as Hst.
    pose proof (proj1 (Forall_forall _ _) HhS s Hin) as Hh.
    split; [done | by apply Hst]. }
  simpl.
  cut (∃ outs, mapM_result (add_status lk) (VDict <$> D) = Ok outs).
  { intros [outs ->]. by eexists. }
  clear HS HhS.
  induction HD as [|d D Hd _ IH]; [by eexists |].
  apply Forall_cons in HhD as [Hh HhD]. destruct (IH HhD) as [outs IH'].
  clear IH. rename IH' into IH.
  rewrite fmap_cons. simpl. rewrite add_status_dict, IH.
  unfold has_key, serial_hashable in *.
  apply bool_decide_eq_true in Hd as [v Hv]. rewrite Hv in Hh |- *.
  apply hash_key_hashable in Hh as [h ->]. by eexists.
Qed.

(** C10: status records without a ['serial'] key do not influence the
    outcome: removing them from the status list changes neither the
    result nor the exception. *)
Theorem get_device_details_ignores_serialless (devices : value) (S : list dict) :
  get_device_details devices (dicts (filter (λ s, is_Some (s !! "serial")) S)) =
  get_device_details devices (dicts S).
Proof.
  unfold get_device_details, dicts. simpl.
  by rewrite build_status_lookup_filter.
Qed.

(** ** The effect monad *)

Lemma prog_bind_Ok {A B} (m : prog A) (f : A → prog B) t a :
  m = (t, Ok a) → m ≫= f = (t ++ (f a).1, (f a).2).
Proof. intros ->. simpl. by destruct (f a). Qed.

Lemma prog_bind_Raise {A B} (m : prog A) (f : A → prog B) t e :
  m = (t, Raise e) → m ≫= f = (t, Raise e).
Proof. by intros ->. Qed.

(** ** The report *)

Lemma count_status_bounds s (ds : list value) n :
  count_status s ds = Ok n → (0 ≤ n ≤ Z.of_nat (length ds))%Z.
Proof.
  revert n. induction ds as [|d ds IH]; intros n; simpl.
  - intros [= <-]. lia.
  - intros (st & _ & (m & Em & [= <-])%bind_Ok)%bind_Ok.
    specialize (IH _ Em). destruct (eq_str st s); lia.
Qed.

Lemma eq_str_online_offline (st : value) :
  eq_str st "online" = true → eq_str st "offline" = false.
Proof.
  destruct st; try done. simpl. intros ->%String.eqb_eq. done.
Qed.

Lemma count_status_online_offline (ds : list value) a b :
  count_status "online" ds = Ok a →
  count_status "offline" ds = Ok b →
  (a + b ≤ Z.of_nat (length ds))%Z.
Proof.
  revert a b. induction ds as [|d ds IH]; intros a b; simpl.
  - intros [= <-] [= <-]. lia.
  - intros (st & Est & (m & Em & [= <-])%bind_Ok)%bind_Ok.
    rewrite Est. simpl.
    intros (m' & Em' & [= <-])%bind_Ok.
    specialize (IH _ _ Em Em').
    destruct (eq_str st "online") eqn:Eon.
    + rewrite (eq_str_online_offline _ Eon). lia.
    + destruct (eq_str st "offline"); lia.
Qed.

Lemma get_device_details_length (ds : list value) statuses out :
  get_device_details (VList ds) statuses = Ok out →
  ∃ outs, out = VList outs ∧ length outs = length ds.
Proof.
  unfold get_device_details.
  intros (ss & _ & (lk & _ & E)%bind_Ok)%bind_Ok. simpl in E.
  apply bind_Ok in E as (outs & Eouts & [= <-]).
  exists outs. split; [done |].
  apply mapM_result_Ok in Eouts. symmetry. by eapply Forall2_length.
Qed.

(** C3: in the summary of a report, [total_devices] is the length of the
    device list, [online_devices + offline_devices <= total_devices], and
    [availability_percentage] is [0] when the total is zero and
    [round(online / total * 100, 2)] otherwise. *)
Theorem generate_network_report_summary
    (w : World) org_name network_name (ds : list value) statuses report :
  generate_network_report w org_name network_name (VList ds) statuses
    = Ok report →
  ∃ (summary : dict) (total online offline : Z),
    getitem report "summary" = Ok (VDict summary) ∧
    summary !! "total_devices" = Some (VInt total) ∧
    summary !! "online_devices" = Some (VInt online) ∧
    summary !! "offline_devices" = Some (VInt offline) ∧
    summary !! "availability_percentage" =
      Some (if (total =? 0)%Z then VInt 0
            else VFloat (float_round
                           (float_mul_int (int_truediv online total) 100) 2)) ∧
    total = Z.of_nat (length ds) ∧
    (0 ≤ online)%Z ∧ (0 ≤ offline)%Z ∧
    (online + offline ≤ total)%Z.
Proof.
  unfold generate_network_report.
  intros (detailed & (outs & -> & Hlen)%get_device_details_length & E)%bind_Ok.
  simpl in E.
  apply bind_Ok in E as (online & Eon & (offline & Eoff & [= <-])%bind_Ok).
  eexists _, (Z.of_nat (length outs)), online, offline.
  split_and!; try done.
  - unfold availability_percentage.
    rewrite lookup_insert_ne, lookup_insert_ne, lookup_insert_ne,
      lookup_insert_eq by done.
    by destruct (length outs).
  - by rewrite Hlen.
  - apply count_status_bounds in Eon. lia.
  - apply count_status_bounds in Eoff. lia.
  - by apply count_status_online_offline.
Qed.

(** ** Requests and fetchers *)

(** C4 (amended): a fetcher returns the empty list whenever
    [make_api_request] returned a false value (the null result, but also
    an empty list, object or string, zero or false), and returns the
    result of [make_api_request] unchanged otherwise. *)
Theorem fetch_coalesces_false_results (w : World) (f : fetcher) t r :
  make_api_request w (fetcher_endpoint f) = (t, Ok r) →
  fetch w f = (t, Ok (if truthy r then r else VList [])) ∧
  (r = VNone → fetch w f = (t, Ok (VList []))).
Proof.
  intros E.
  assert (fetch w f = (t, Ok (if truthy r then r else VList []))) as Hf.
  { destruct f; simpl;
      unfold get_organizations, get_networks, get_network_inventory,
        get_device_availabilities, get_device_statuses;
      simpl in E |- *; rewrite (prog_bind_Ok _ _ _ _ E); simpl;
      by rewrite app_nil_r. }
  split; [done |]. intros ->. by rewrite Hf.
Qed.

(** ** Persistence *)

Lemma isinstance_OSError_Exception e :
  isinstance e OSError = true → isinstance e Exception = true.
Proof. unfold isinstance. by destruct (exn_cls e). Qed.


(** ** Authentication *)

(** C6: with the API key unset or empty, [get_api_key] raises a
    [ValueError], and neither [make_api_request] nor a whole run of [main]
    sends a request: the error is raised while the arguments of
    [requests.get] are evaluated. *)
Theorem missing_api_key_fails_before_request (w : World) :
  environ w !! "MERAKI_API_KEY" = None ∨
  environ w !! "MERAKI_API_KEY" = Some "" →
  get_api_key w = Raise missing_api_key ∧
  exn_cls missing_api_key = ValueError ∧
  (∀ endpoint,
     make_api_request w endpoint =
       ([Print [Lit "Unexpected error: "; FmtExn missing_api_key]], Ok VNone)) ∧
  (∀ endpoint, http_requests (make_api_request w endpoint).1 = []) ∧
  http_requests (main w).1 = [].
Proof.
  intros Hkey.
  assert (get_api_key w = Raise missing_api_key) as Hget.
  { unfold get_api_key, getenv. by destruct Hkey as [-> | ->]. }
  assert (∀ endpoint, make_api_request w endpoint =
            ([Print [Lit "Unexpected error: "; FmtExn missing_api_key]],
             Ok VNone)) as Hreq.
  { intros endpoint.
    unfold make_api_request, requests_get_json, get_headers.
    by rewrite Hget. }
  split_and!; [done.. | |].
  - intros endpoint. by rewrite Hreq.
  - unfold main, get_organizations. by rewrite Hreq.
Qed.

(** ** Orchestrator *)

(** Two outcomes with the same events, up to the bracketing of [++]. *)
Ltac trace_eq :=
  f_equal; repeat (simpl; rewrite <-app_assoc); simpl; reflexivity.

(** The clause [except Exception as e: print(f"Error: {e}")] of [main]. *)
Local Abbreviation except_all w :=
  [(Exception, λ e, print w [Lit "Error: "; FmtExn e])].

Lemma print_formatted (w : World) s (v : value) :
  format_error w v = None →
  print w [Lit s; Fmt v] = ([Print [Lit s; Fmt v]], Ok ()).
Proof. intros Hv. unfold print. simpl. by rewrite Hv. Qed.

Lemma prog_bind_events {A B} (m : prog A) (f : A → prog B) :
  (m ≫= f).1 =
  m.1 ++ match m.2 with
         | Ok a => (f a).1
         | Raise _ => []
         end.
Proof.
  destruct m as [t [a|e]]; simpl; [| by rewrite app_nil_r].
  by destruct (f a).
Qed.

Lemma prog_bind_trace {A B} (m : prog A) (f : A → prog B) :
  ∃ rest, (m ≫= f).1 = m.1 ++ rest.
Proof. rewrite prog_bind_events. eauto. Qed.

Lemma bind_lift_Ok {A B} (a : A) (f : A → prog B) : lift (Ok a) ≫= f = f a.
Proof. simpl. by destruct (f a). Qed.

Lemma try_except_trace {A} (body : prog A) hs :
  ∃ rest, (try_except body hs).1 = body.1 ++ rest.
Proof.
  destruct body as [t [a|e]]; simpl.
  - exists []. by rewrite app_nil_r.
  - destruct (find_handler e hs) as [[t' r]|]; simpl; [by exists t' |].
    exists []. by rewrite app_nil_r.
Qed.

Lemma head_app_Some {A} (l l' : list A) x :
  head l = Some x → head (l ++ l') = Some x.
Proof. by destruct l. Qed.

Lemma save_to_file_head (w : World) (data : value) filename :
  head (save_to_file w data filename).1 = Some (WriteFile filename data).
Proof.
  unfold save_to_file, open_and_dump.
  destruct (fs_write w filename data) as [e|]; simpl; [| done].
  by destruct (isinstance e Exception).
Qed.

(** A fetcher never returns a false value other than the empty list. *)
Lemma get_network_inventory_false (w : World) network_id t (devices : value) :
  get_network_inventory w network_id = (t, Ok devices) →
  truthy devices = false →
  devices = VList [].
Proof.
  unfold get_network_inventory, py_or.
  destruct (make_api_request w _) as [t' [r|e]]; simpl; [| done].
  intros [= _ <-]. by destruct (truthy r) eqn:Hr; [rewrite Hr |].
Qed.

Lemma report_and_summary_events
    (w : World) (first_org first_network devices statuses : value) :
  ∃ rest,
    (report_and_summary w first_org first_network devices statuses).1 =
      Print [Lit (nl +:+ "Generating network report...")] :: rest ∧
    ∀ org_name network_name report,
      getitem first_org "name" = Ok org_name →
      getitem first_network "name" = Ok network_name →
      generate_network_report w org_name network_name devices statuses
        = Ok report →
      head rest = Some (WriteFile "network_report.json" report).
Proof.
  unfold report_and_summary. eexists. split.
  - rewrite prog_bind_events. cbn [print text_error frag_error emit fst snd app].
    reflexivity.
  - intros org_name network_name report E1 E2 E3.
    rewrite E1, bind_lift_Ok, E2, bind_lift_Ok, E3, bind_lift_Ok.
    rewrite prog_bind_events.
    pose proof (save_to_file_head w report "network_report.json") as Hhead.
    by destruct (save_to_file w report "network_report.json").1.
Qed.

Lemma main_at_organizations (w : World) t organizations :
  get_organizations w = (t, Ok organizations) →
  truthy organizations = true →
  main w =
    try_except
      ((Print [Lit "Fetching Meraki organization data..."] :: t, Ok ()) ≫=
         λ _, main_organization w organizations)
      (except_all w).
Proof.
  intros E Ht. unfold main. f_equal. simpl.
  rewrite (prog_bind_Ok _ _ _ _ E), Ht. simpl.
  by destruct (main_organization w organizations).
Qed.

Lemma main_at_networks (w : World) pre first_org org_id :
  reaches_get_networks w pre first_org org_id →
  main w =
    try_except
      ((pre, Ok ()) ≫= λ _,
         networks ← get_networks w org_id;
         if negb (truthy networks) then print w [Lit "No networks found."]
         else main_network w first_org networks)
      (except_all w).
Proof.
  intros (t0 & orgs & ts & b & name & E0 & Ht0 & Es & E1 & E2 & Hp & E3 & ->).
  rewrite (main_at_organizations _ _ _ E0 Ht0). f_equal.
  unfold main_organization.
  rewrite (prog_bind_Ok _ _ _ _ Es). simpl. rewrite E1. simpl.
  rewrite E2. simpl. rewrite (print_formatted _ _ _ Hp). simpl.
  rewrite E3. simpl.
  destruct (get_networks w org_id ≫= _) as [t' r]. trace_eq.
Qed.

Lemma main_at_inventory (w : World) pre first_org org_id first_network network_id :
  reaches_get_network_inventory w pre first_org org_id first_network network_id →
  main w =
    try_except
      ((pre, Ok ()) ≫= λ _,
         devices ← get_network_inventory w network_id;
         main_devices w first_org first_network devices)
      (except_all w).
Proof.
  intros (pre0 & t & networks & ts & b & name & Hpre & E & Ht & Es & G0 & G1 &
          Hp & G2 & ->).
  rewrite (main_at_networks _ _ _ _ Hpre). f_equal. simpl.
  rewrite (prog_bind_Ok _ _ _ _ E), Ht. simpl. unfold main_network.
  rewrite (prog_bind_Ok _ _ _ _ Es). simpl. rewrite G0. simpl.
  rewrite G1. simpl. rewrite (print_formatted _ _ _ Hp). simpl.
  rewrite G2. simpl.
  destruct (get_network_inventory w network_id ≫= _) as [t' r]. trace_eq.
Qed.

Lemma main_at_statuses (w : World) pre first_org first_network devices org_id :
  reaches_get_device_statuses w pre first_org first_network devices org_id →
  main w =
    try_except
      ((pre, Ok ()) ≫= λ _,
         statuses ← get_device_statuses w org_id;
         if truthy statuses then
           report_and_summary w first_org first_network devices statuses
         else print w [Lit "Unable to retrieve device status information."])
      (except_all w).
Proof.
  intros (pre0 & network_id & t & n & ts & b & Hpre & E & Hn & Es & ->).
  rewrite (main_at_inventory _ _ _ _ _ _ Hpre). f_equal. simpl.
  rewrite (prog_bind_Ok _ _ _ _ E). simpl. unfold main_devices.
  rewrite Hn. simpl. rewrite (prog_bind_Ok _ _ _ _ Es). simpl.
  destruct Hpre as (? & ? & ? & ? & ? & ? & Hpre & _).
  destruct Hpre as (_ & _ & _ & _ & _ & _ & _ & _ & _ & _ & _ & Hid & _).
  rewrite Hid. simpl.
  destruct (get_device_statuses w org_id ≫= _) as [t' r]. trace_eq.
Qed.

(** C7 (amended): an empty (false) organizations or networks result ends
    the run at once with a message and a normal return, and an empty
    statuses result ends it with a message: in each case the message is the
    only event after the fetch.  An empty device list does not end the
    run: the count 0 is printed, [devices.json] is saved and the statuses
    are fetched; and with statuses that are not empty the run starts on the
    report, which is written as soon as [generate_network_report] has
    returned it. *)
Theorem main_short_circuits (w : World) :
  (∀ t organizations,
     get_organizations w = (t, Ok organizations) →
     truthy organizations = false →
     main w =
       (Print [Lit "Fetching Meraki organization data..."] :: t ++
        [Print [Lit "No organizations found or API error occurred."]],
        Ok ())) ∧
  (∀ pre first_org org_id t networks,
     reaches_get_networks w pre first_org org_id →
     get_networks w org_id = (t, Ok networks) →
     truthy networks = false →
     main w = (pre ++ t ++ [Print [Lit "No networks found."]], Ok ())) ∧
  (∀ pre first_org first_network devices org_id t statuses,
     reaches_get_device_statuses w pre first_org first_network devices org_id →
     get_device_statuses w org_id = (t, Ok statuses) →
     truthy statuses = false →
     main w =
       (pre ++ t ++ [Print [Lit "Unable to retrieve device status information."]],
        Ok ())) ∧
  (∀ pre first_org org_id first_network network_id t devices ts b,
     reaches_get_network_inventory w pre first_org org_id
       first_network network_id →
     get_network_inventory w network_id = (t, Ok devices) →
     truthy devices = false →
     save_to_file w devices "devices.json" = (ts, Ok b) →
     devices = VList [] ∧
     head ts = Some (WriteFile "devices.json" (VList [])) ∧
     ∃ rest,
       (main w).1 =
         pre ++ t ++ [Print [Lit "Devices: "; Fmt (VInt 0); Lit " found"]] ++
         ts ++ [Print [Lit (nl +:+ "Fetching device status information...")]] ++
         (get_device_statuses w org_id).1 ++ rest) ∧
  (∀ pre first_org first_network devices org_id t statuses,
     reaches_get_device_statuses w pre first_org first_network devices org_id →
     get_device_statuses w org_id = (t, Ok statuses) →
     truthy statuses = true →
     ∃ rest,
       (main w).1 =
         pre ++ t ++ Print [Lit (nl +:+ "Generating network report...")] :: rest ∧
       ∀ org_name network_name report,
         getitem first_org "name" = Ok org_name →
         getitem first_network "name" = Ok network_name →
         generate_network_report w org_name network_name devices statuses
           = Ok report →
         head rest = Some (WriteFile "network_report.json" report)).
Proof.
  split_and!.
  - intros t orgs E Ht. unfold main. simpl.
    by rewrite (prog_bind_Ok _ _ _ _ E), Ht.
  - intros pre first_org org_id t networks Hpre E Ht.
    rewrite (main_at_networks _ _ _ _ Hpre). simpl.
    by rewrite (prog_bind_Ok _ _ _ _ E), Ht.
  - intros pre first_org first_network devices org_id t statuses Hpre E Ht.
    rewrite (main_at_statuses _ _ _ _ _ _ Hpre). simpl.
    by rewrite (prog_bind_Ok _ _ _ _ E), Ht.
  - intros pre first_org org_id first_network network_id t devices ts b
      Hpre E Ht Es.
    pose proof (get_network_inventory_false _ _ _ _ E Ht) as ->.
    split; [done |]. split.
    { rewrite <-(save_to_file_head w (VList []) "devices.json"). by rewrite Es. }
    assert (reaches_get_device_statuses w
              (pre ++ t ++
               [Print [Lit "Devices: "; Fmt (VInt 0); Lit " found"]] ++ ts ++
               [Print [Lit (nl +:+ "Fetching device status information...")]])
              first_org first_network (VList []) org_id) as Hreach.
    { by exists pre, network_id, t, 0%Z, ts, b. }
    rewrite (main_at_statuses _ _ _ _ _ _ Hreach).
    destruct (try_except_trace
                ((pre ++ t ++
                  [Print [Lit "Devices: "; Fmt (VInt 0); Lit " found"]] ++ ts ++
                  [Print [Lit (nl +:+ "Fetching device status information...")]],
                  Ok ()) ≫= λ _,
                   statuses ← get_device_statuses w org_id;
                   if truthy statuses then
                     report_and_summary w first_org first_network (VList [])
                       statuses
                   else print w
                          [Lit "Unable to retrieve device status information."])
                (except_all w)) as [rest ->].
    simpl.
    destruct (prog_bind_trace (get_device_statuses w org_id)
                (λ statuses,
                   if truthy statuses then
                     report_and_summary w first_org first_network (VList [])
                       statuses
                   else print w
                          [Lit "Unable to retrieve device status information."]))
      as [rest' Hrest'].
    destruct (get_device_statuses w org_id ≫= _) as [t' r]. simpl in *.
    subst t'. exists (rest' ++ rest).
    repeat (simpl; rewrite <-?app_assoc). reflexivity.
  - intros pre first_org first_network devices org_id t statuses Hpre E Ht.
    rewrite (main_at_statuses _ _ _ _ _ _ Hpre).
    assert (((pre, Ok ()) ≫= λ _,
               statuses ← get_device_statuses w org_id;
               if truthy statuses then
                 report_and_summary w first_org first_network devices statuses
               else print w
                      [Lit "Unable to retrieve device status information."])
            = (pre ++ t ++
               (report_and_summary w first_org first_network devices statuses).1,
               (report_and_summary w first_org first_network devices statuses).2))
      as ->.
    { simpl. by rewrite (prog_bind_Ok _ _ _ _ E), Ht. }
    destruct (try_except_trace
                (pre ++ t ++
                 (report_and_summary w first_org first_network devices statuses).1,
                 (report_and_summary w first_org first_network devices statuses).2)
                (except_all w)) as [rest ->].
    destruct (report_and_summary_events w first_org first_network devices
                statuses) as (rest' & -> & Hreport).
    exists (rest' ++ rest). split.
    { repeat (simpl; rewrite <-?app_assoc). reflexivity. }
    intros org_name network_name report E1 E2 E3.
    rewrite (head_app_Some rest' rest _ (Hreport _ _ _ E1 E2 E3)). done.
Qed.

End Properties.

(** * Further properties *)

Section MoreProperties.
Context {float : Type} `{!EqDecision float, !Countable float, !PyFloat float}.

Abbreviation value := (value (float := float)).
Abbreviation dict := (gmap string value).
Abbreviation event := (event (float := float)).
Abbreviation prog := (prog (float := float)).
Abbreviation World := (World (float := float)).

(** ** get_device_details: missing keys *)

Lemma build_status_lookup_incomplete (S : list dict) : ∀ acc,
  forallb serial_hashable S = true →
  statuses_complete S = false →
  build_status_lookup (VDict <$> S) acc = Raise (PyExn KeyError "status").
Proof.
  unfold statuses_complete.
  induction S as [|s S IH]; intros acc Hh Hc; [done |].
  simpl in Hh, Hc. apply andb_true_iff in Hh as [Hs Hh].
  rewrite fmap_cons, build_status_lookup_cons.
  unfold has_key, serial_hashable in *.
  destruct (s !! "serial") as [v|].
  - destruct (s !! "status") as [st|]; [| done].
    apply hash_key_hashable in Hs as [h ->]. simpl.
    apply IH; [done |].
    rewrite !bool_decide_eq_true_2 in Hc by eauto. done.
  - apply IH; [done |].
    rewrite (bool_decide_eq_false_2 (is_Some None)) in Hc by (by intros [? [=]]).
    done.
Qed.

Lemma add_status_missing_serial lk (D : list dict) :
  forallb serial_hashable D = true →
  forallb (has_key "serial") D = false →
  mapM_result (add_status lk) (VDict <$> D) = Raise (PyExn KeyError "serial").
Proof.
  induction D as [|d D IH]; intros Hh Hk; [done |].
  simpl in Hh, Hk. apply andb_true_iff in Hh as [Hd Hh].
  rewrite fmap_cons. simpl. rewrite add_status_dict.
  unfold has_key, serial_hashable in *.
  destruct (d !! "serial") as [v|]; [| done].
  apply hash_key_hashable in Hd as [h ->]. simpl.
  rewrite IH; [done.. |].
  rewrite bool_decide_eq_true_2 in Hk by eauto. done.
Qed.

(** X1: with hashable serials, a missing key is the only way to fail, and
    it fails with the [KeyError] of that key: ['status'] when a status
    record has a ['serial'] and no ['status'], otherwise ['serial'] when a
    device has none. *)
Theorem get_device_details_missing_key (D S : list dict) :
  serials_hashable D S = true →
  keys_present D S = false →
  get_device_details (dicts D) (dicts S) =
    Raise (PyExn KeyError (if statuses_complete S then "serial" else "status")).
Proof.
  unfold serials_hashable, keys_present. rewrite forallb_app.
  intros [HhD HhS]%andb_true_iff Hk.
  rewrite get_device_details_dicts.
  destruct (statuses_complete S) eqn:Hc.
  - destruct (build_status_lookup_total S ∅) as [lk ->].
    { apply Forall_forall. intros s Hin%list_elem_of_In Hs.
      pose proof (proj1 (forallb_forall _ _) HhS s Hin) as Hh.
      pose proof (proj1 (forallb_forall _ _) Hc s Hin) as Hst.
      simpl in Hst. rewrite Hs in Hst. done. }
    simpl. rewrite add_status_missing_serial; [done.. |].
    unfold statuses_complete in Hc. rewrite Hc, andb_true_r in Hk. done.
  - by rewrite build_status_lookup_incomplete.
Qed.

(** ** get_device_details: merging twice *)

Lemma add_status_again lk (device o : value) :
  add_status lk device = Ok o → add_status lk o = Ok o.
Proof.
  destruct device as [| | | | | |d]; try done.
  intros (v & h & Ev & Eh & ->)%add_status_Ok.
  rewrite add_status_dict, lookup_insert_ne, Ev, Eh by done. simpl.
  by rewrite insert_insert_eq.
Qed.

(** X2: merging the merged list with the same statuses changes nothing. *)
Theorem get_device_details_idempotent (devices statuses out : value) :
  get_device_details devices statuses = Ok out →
  get_device_details out statuses = Ok out.
Proof.
  unfold get_device_details.
  intros (ss & Ess & (lk & Elk & E)%bind_Ok)%bind_Ok.
  rewrite Ess. simpl. rewrite Elk. simpl.
  apply bind_Ok in E as (ds & _ & (outs & Eouts & [= <-])%bind_Ok). simpl.
  apply mapM_result_Ok in Eouts.
  assert (mapM_result (add_status lk) outs = Ok outs) as ->; [| done].
  apply mapM_result_Ok.
  induction Eouts as [|d o ds outs Ho _ IH]; constructor; [| done].
  by eapply add_status_again.
Qed.

(** ** get_device_details: the order of the statuses *)

Lemma status_entries_cons (s : dict) S :
  status_entries (s :: S) =
  match s !! "serial", s !! "status" with
  | Some v, Some st =>
      match hash_key v with
      | Ok k => (k, st) :: status_entries S
      | Raise _ => status_entries S
      end
  | _, _ => status_entries S
  end.
Proof.
  unfold status_entries, serial_key. simpl.
  destruct (s !! "serial") as [v|]; [| done].
  destruct (hash_key v); [| by destruct (s !! "status")].
  by destruct (s !! "status").
Qed.

Lemma serial_keys_cons (s : dict) S :
  serial_keys (s :: S) =
  match s !! "serial" with
  | Some v =>
      match hash_key v with
      | Ok k => k :: serial_keys S
      | Raise _ => serial_keys S
      end
  | None => serial_keys S
  end.
Proof.
  unfold serial_keys, serial_key. simpl.
  destruct (s !! "serial") as [v|]; [| done]. by destruct (hash_key v).
Qed.

Lemma build_status_lookup_entries (S : list dict) : ∀ acc lk,
  build_status_lookup (VDict <$> S) acc = Ok lk →
  lk = list_to_map (reverse (status_entries S)) ∪ acc ∧
  (status_entries S).*1 = serial_keys S.
Proof.
  induction S as [|s S IH]; intros acc lk E.
  - injection E as <-. split; [| done].
    change (acc = ∅ ∪ acc). by rewrite (left_id_L ∅ (∪)).
  - rewrite fmap_cons, build_status_lookup_cons in E.
    rewrite status_entries_cons, serial_keys_cons.
    destruct (s !! "serial") as [v|]; [| by apply IH].
    destruct (s !! "status") as [st|]; [| done].
    destruct (hash_key v) as [h|]; [| done]. simpl in E.
    destruct (IH _ _ E) as [-> Hk]. split; [| by rewrite fmap_cons, Hk].
    rewrite reverse_cons, list_to_map_app. simpl.
    by rewrite insert_empty, <-(assoc_L (∪)), <-insert_union_singleton_l.
Qed.

Lemma build_status_lookup_Permutation (S S' : list dict) lk :
  S ≡ₚ S' →
  NoDup (serial_keys S) →
  build_status_lookup (VDict <$> S) ∅ = Ok lk →
  build_status_lookup (VDict <$> S') ∅ = Ok lk.
Proof.
  intros HP Hnd E.
  destruct (build_status_lookup_entries _ _ _ E) as [-> Hkeys].
  destruct (build_status_lookup_total S' ∅) as [lk' E'].
  { rewrite <-HP. apply Forall_forall. intros s Hin Hs.
    apply list_elem_of_split in Hin as (S1 & S2 & ->).
    rewrite fmap_app, build_status_lookup_app in E.
    apply bind_Ok in E as (lk1 & _ & E).
    rewrite fmap_cons, build_status_lookup_cons in E.
    unfold has_key, serial_hashable in *.
    apply bool_decide_eq_true in Hs as [v Hv]. rewrite Hv in E |- *.
    destruct (s !! "status") as [st|]; [| done].
    destruct (hash_key v) as [h|] eqn:Eh; [| done].
    split; [| by apply bool_decide_eq_true; eauto].
    apply hash_key_hashable. eauto. }
  rewrite E'. f_equal.
  destruct (build_status_lookup_entries _ _ _ E') as [-> _].
  f_equal. symmetry. apply list_to_map_proper.
  - by rewrite fmap_reverse, Hkeys, reverse_Permutation.
  - unfold status_entries. by rewrite !reverse_Permutation, HP.
Qed.

(** X3: when no two status records carry the same serial, the order of the
    status list does not matter. *)
Theorem get_device_details_status_order (D S S' : list dict) out :
  S ≡ₚ S' →
  NoDup (serial_keys S) →
  get_device_details (dicts D) (dicts S) = Ok out →
  get_device_details (dicts D) (dicts S') = Ok out.
Proof.
  intros HP Hnd. rewrite !get_device_details_dicts.
  intros (lk & Elk & E)%bind_Ok.
  by rewrite (build_status_lookup_Permutation _ _ _ HP Hnd Elk).
Qed.

(** ** The report and the merge *)

Lemma add_status_has_status lk (device o : value) :
  add_status lk device = Ok o → ∃ st, getitem o "status" = Ok st.
Proof.
  destruct device as [| | | | | |d]; try done.
  intros (v & h & _ & _ & ->)%add_status_Ok.
  simpl. rewrite lookup_insert_eq. eauto.
Qed.

Lemma count_status_total s (outs : list value) :
  Forall (λ o, ∃ st, getitem o "status" = Ok st) outs →
  ∃ n, count_status s outs = Ok n.
Proof.
  induction 1 as [|o outs [st Ho] _ [n IH]]; [by eexists |].
  simpl. rewrite Ho, IH. by eexists.
Qed.

Lemma get_device_details_merged (devices statuses merged : value) :
  get_device_details devices statuses = Ok merged →
  ∃ outs, merged = VList outs ∧
          Forall (λ o, ∃ st, getitem o "status" = Ok st) outs.
Proof.
  unfold get_device_details.
  intros (ss & _ & (lk & _ & (ds & _ & (outs & E & [= <-])%bind_Ok)%bind_Ok)%bind_Ok)%bind_Ok.
  exists outs. split; [done |].
  apply mapM_result_Ok in E.
  induction E as [|d o ds outs Ho _ IH]; constructor; [| done].
  by eapply add_status_has_status.
Qed.

Lemma generate_network_report_cases
    (w : World) (org_name network_name devices statuses : value) :
  match get_device_details devices statuses with
  | Raise e =>
      generate_network_report w org_name network_name devices statuses
      = Raise e
  | Ok merged =>
      ∃ report : dict,
        generate_network_report w org_name network_name devices statuses
        = Ok (VDict report) ∧
        report !! "timestamp" = Some (VStr (now_isoformat w)) ∧
        report !! "organization" = Some org_name ∧
        report !! "network" = Some network_name ∧
        report !! "devices" = Some merged ∧
        dom report =
          {[ "timestamp"; "organization"; "network"; "summary"; "devices" ]}
  end.
Proof.
  unfold generate_network_report.
  destruct (get_device_details devices statuses) as [merged|e] eqn:E; [| done].
  apply get_device_details_merged in E as (outs & -> & Houts). simpl.
  destruct (count_status_total "online" _ Houts) as [a ->].
  destruct (count_status_total "offline" _ Houts) as [b ->]. simpl.
  eexists. split; [done |]. by split_and!.
Qed.

(** X4: building the report adds no failure of its own: it raises exactly
    what the merge raises, and otherwise returns a report whose
    ['devices'] is the merged list, with the organization and network
    names it was given and the time of the clock. *)
Theorem generate_network_report_outcome
    (w : World) (org_name network_name devices statuses : value) :
  match get_device_details devices statuses with
  | Raise e =>
      generate_network_report w org_name network_name devices statuses
      = Raise e
  | Ok merged =>
      ∃ report : dict,
        generate_network_report w org_name network_name devices statuses
        = Ok (VDict report) ∧
        report !! "timestamp" = Some (VStr (now_isoformat w)) ∧
        report !! "organization" = Some org_name ∧
        report !! "network" = Some network_name ∧
        report !! "devices" = Some merged ∧
        dom report =
          {[ "timestamp"; "organization"; "network"; "summary"; "devices" ]}
  end.
Proof. apply generate_network_report_cases. Qed.

(** ** make_api_request: outcomes *)

(** X5: with the API key set, a request whose answer parses is sent once,
    to the base URL followed by the endpoint, with the key and the content
    type as headers, and its body is returned as it is. *)
Theorem make_api_request_success (w : World) endpoint api_key body :
  environ w !! "MERAKI_API_KEY" = Some api_key →
  api_key ≠ "" →
  http w (Lit base_url :: endpoint) (api_headers api_key) = Ok body →
  make_api_request w endpoint =
    ([HttpGet (Lit base_url :: endpoint) (api_headers api_key)], Ok body).
Proof.
  intros Hkey Hne Hbody.
  unfold make_api_request, requests_get_json, get_headers, get_api_key, getenv.
  rewrite Hkey. simpl.
  apply String.eqb_neq in Hne as ->. simpl.
  change (<["X-Cisco-Meraki-API-Key":=VStr api_key]>
            (<["Content-Type":=VStr "application/json"]> ∅))
    with (api_headers (float := float) api_key).
  by rewrite Hbody.
Qed.


(** ** A logic of traces and exceptions *)

Lemma within_ret {A} (P : event → Prop) Q (a : A) : prog_within P Q (mret a).
Proof. split; [constructor | done]. Qed.

Lemma within_lift {A} (P : event → Prop) (Q : exn → Prop) (r : result A) :
  (∀ e, r = Raise e → Q e) → prog_within P Q (lift r).
Proof. intros Hr. split; [constructor | done]. Qed.

(** A [print] that fails, fails with a [UnicodeEncodeError]. *)
Lemma within_print (P : event → Prop) (Q : exn → Prop) (w : World) t :
  P (Print t) → (∀ e, catchable e = true → Q e) →
  prog_within P Q (print w t).
Proof.
  intros Ht HQ. unfold print. destruct (text_error w t) as [msg|].
  - split; [constructor |]. intros e [= <-]. by apply HQ.
  - split; [by repeat constructor | done].
Qed.

Lemma within_bind {A B} (P : event → Prop) Q (m : prog A) (f : A → prog B) :
  prog_within P Q m →
  (∀ a, m.2 = Ok a → prog_within P Q (f a)) →
  prog_within P Q (m ≫= f).
Proof.
  destruct m as [t [a|e]]; intros [Ht Hm] Hf; simpl in *.
  - destruct (Hf a eq_refl) as [Ht' Hf']. destruct (f a) as [t' r].
    split; [by apply Forall_app | done].
  - split; [exact Ht |]. intros e' [= <-]. by apply Hm.
Qed.

Lemma within_for_each {A} (P : event → Prop) Q (body : A → prog unit) l :
  (∀ a, prog_within P Q (body a)) → prog_within P Q (for_each body l).
Proof.
  intros Hbody. induction l as [|a l IH]; simpl.
  - apply within_ret.
  - apply within_bind; [apply Hbody | done].
Qed.

(** [try: body / except Exception as e: print(f"...{e}")]. *)
Lemma within_catch_all (P : event → Prop) (Q : exn → Prop)
    (w : World) (body : prog unit) s :
  prog_within P Q body →
  (∀ t, P (Print t)) →
  prog_within P (λ e, Q e ∧ catchable e = false)
    (try_except body [(Exception, λ e, print w [Lit s; FmtExn e])]).
Proof.
  destruct body as [t [[]|e]]; intros [Ht Hb] HP; simpl in *.
  - done.
  - fold (catchable e). destruct (catchable e) eqn:Hc; simpl.
    + split; [| done]. apply Forall_app. split; [done |]. by repeat constructor.
    + split; [done |]. intros e' [= <-]. auto.
Qed.

(** ** The exceptions of the pure functions are all caught by
    [except Exception] *)

Lemma getitem_catchable (v : value) s e :
  getitem v s = Raise e → catchable e = true.
Proof. destruct v; simpl; try (by intros [= <-]). by case_match; intros [= <-]. Qed.

Lemma getitem0_catchable (v : value) e :
  getitem0 v = Raise e → catchable e = true.
Proof. destruct v; simpl; try (by intros [= <-]); by case_match; intros [= <-]. Qed.

Lemma py_len_catchable (v : value) e : py_len v = Raise e → catchable e = true.
Proof. destruct v; simpl; by intros [= <-]. Qed.

Lemma py_iter_catchable (v : value) e : py_iter v = Raise e → catchable e = true.
Proof. destruct v; simpl; by intros [= <-]. Qed.

Lemma py_in_catchable s (v : value) e : py_in s v = Raise e → catchable e = true.
Proof. destruct v; simpl; by intros [= <-]. Qed.

Lemma py_copy_catchable (v : value) e : py_copy v = Raise e → catchable e = true.
Proof. destruct v; simpl; by intros [= <-]. Qed.

Lemma setitem_catchable (v : value) s x e :
  setitem v s x = Raise e → catchable e = true.
Proof. destruct v; simpl; by intros [= <-]. Qed.

Lemma hash_key_catchable (v : value) e : hash_key v = Raise e → catchable e = true.
Proof. destruct v; simpl; by intros [= <-]. Qed.

Lemma py_get_catchable (v : value) s d e :
  py_get v s d = Raise e → catchable e = true.
Proof. destruct v; simpl; by intros [= <-]. Qed.

Lemma py_upper_catchable upper (v : value) e :
  py_upper upper v = Raise e → catchable e = true.
Proof. destruct v; simpl; by intros [= <-]. Qed.

Lemma bind_Raise {A B} (m : result A) (f : A → result B) e :
  m ≫= f = Raise e → m = Raise e ∨ ∃ a, m = Ok a ∧ f a = Raise e.
Proof. destruct m as [a|e']; simpl; [eauto | intros [= <-]; eauto]. Qed.

Create HintDb catchable.
#[local] Hint Resolve getitem_catchable getitem0_catchable py_len_catchable
  py_iter_catchable py_in_catchable py_copy_catchable setitem_catchable
  hash_key_catchable py_get_catchable py_upper_catchable : catchable.

(** Splits a raising chain of binds into the step that raised. *)
Ltac raising H :=
  repeat (apply bind_Raise in H as [H | (? & _ & H)]);
  eauto with catchable.

Lemma count_status_catchable s (ds : list value) e :
  count_status s ds = Raise e → catchable e = true.
Proof.
  revert e. induction ds as [|d ds IH]; intros e H; [done |].
  simpl in H. apply bind_Raise in H as [H | (st & _ & H)]; [eauto with catchable |].
  apply bind_Raise in H as [H | (n & _ & H)]; [eauto | done].
Qed.

Lemma build_status_lookup_catchable (ss : list value) : ∀ acc e,
  build_status_lookup ss acc = Raise e → catchable e = true.
Proof.
  induction ss as [|s ss IH]; intros acc e H; [done |].
  simpl in H. apply bind_Raise in H as [H | ([] & _ & H)];
    [eauto with catchable | | eauto].
  apply bind_Raise in H as [H | (k & _ & H)]; [eauto with catchable |].
  apply bind_Raise in H as [H | (v & _ & H)]; [eauto with catchable |].
  apply bind_Raise in H as [H | (h & _ & H)]; [eauto with catchable | eauto].
Qed.

Lemma add_status_catchable lk (device : value) e :
  add_status lk device = Raise e → catchable e = true.
Proof.
  unfold add_status, lookup_get. intros H.
  apply bind_Raise in H as [H | (o & _ & H)]; [eauto with catchable |].
  apply bind_Raise in H as [H | (k & _ & H)]; [eauto with catchable |].
  apply bind_Raise in H as [H | (st & Hst & H)]; [| eauto with catchable].
  apply bind_Raise in H as [H | (h & _ & H)]; [eauto with catchable | done].
Qed.

Lemma mapM_result_catchable {A B} (f : A → result B) l e :
  (∀ a e, f a = Raise e → catchable e = true) →
  mapM_result f l = Raise e → catchable e = true.
Proof.
  intros Hf. revert e. induction l as [|a l IH]; intros e H; [done |].
  simpl in H. apply bind_Raise in H as [H | (b & _ & H)]; [eauto |].
  apply bind_Raise in H as [H | (bs & _ & H)]; [eauto | done].
Qed.

Lemma get_device_details_catchable (devices statuses : value) e :
  get_device_details devices statuses = Raise e → catchable e = true.
Proof.
  unfold get_device_details. intros H.
  apply bind_Raise in H as [H | (ss & _ & H)]; [eauto with catchable |].
  apply bind_Raise in H as [H | (lk & _ & H)];
    [by eapply build_status_lookup_catchable |].
  apply bind_Raise in H as [H | (ds & _ & H)]; [eauto with catchable |].
  apply bind_Raise in H as [H | (outs & _ & H)]; [| done].
  eapply mapM_result_catchable; [| done]. apply add_status_catchable.
Qed.

Lemma generate_network_report_catchable
    (w : World) (org_name network_name devices statuses : value) e :
  generate_network_report w org_name network_name devices statuses = Raise e →
  catchable e = true.
Proof.
  pose proof (generate_network_report_cases
                w org_name network_name devices statuses) as H.
  destruct (get_device_details devices statuses) as [merged|e'] eqn:E.
  - destruct H as (report & -> & _). done.
  - rewrite H. intros [= <-]. by eapply get_device_details_catchable.
Qed.

(** ** The effectful functions, within a footprint *)

Section Within.
Variable w : World.
Variables (P : event → Prop) (Q : exn → Prop).
Hypothesis Htraffic : ∀ ev, traffic w ev → P ev.
Hypothesis Hpure : ∀ e, catchable e = true → Q e.
Hypothesis Hhttp : ∀ url headers e,
  http w url headers = Raise e → catchable e = false → Q e.

Lemma within_print_any t : prog_within P Q (print w t).
Proof. apply within_print; [apply Htraffic; constructor | exact Hpure]. Qed.

Lemma make_api_request_within endpoint :
  prog_within P Q (make_api_request w endpoint).
Proof.
  unfold make_api_request, requests_get_json.
  destruct (get_headers w) as [headers|e] eqn:Hh; simpl.
  - destruct (http w (Lit base_url :: endpoint) headers) as [body|e] eqn:He;
      simpl.
    + split; [| done]. repeat constructor. apply Htraffic. by constructor.
    + assert (P (HttpGet (Lit base_url :: endpoint) headers)) as Hget.
      { apply Htraffic. by constructor. }
      assert (∀ t, P (Print t)) as Hprint.
      { intros t. apply Htraffic. constructor. }
      destruct (isinstance e HTTPError); [by split; [repeat constructor |] |].
      destruct (isinstance e RequestException);
        [by split; [repeat constructor |] |].
      destruct (isinstance e Exception) eqn:Hc;
        [by split; [repeat constructor |] |].
      split; [by repeat constructor |]. intros e' [= <-]. by eapply Hhttp.
  - assert (e = missing_api_key) as ->.
    { unfold get_headers, get_api_key in Hh.
      destruct (negb _); [by injection Hh as <- | done]. }
    split; [| done]. repeat constructor. apply Htraffic. constructor.
Qed.

Lemma fetch_within (f : fetcher (float := float)) : prog_within P Q (fetch w f).
Proof.
  destruct f; simpl;
    unfold get_organizations, get_networks, get_network_inventory,
      get_device_availabilities, get_device_statuses;
    (apply within_bind; [apply make_api_request_within |]);
    intros; apply within_ret.
Qed.

Lemma save_to_file_within data filename :
  P (WriteFile filename data) →
  (∀ e, fs_write w filename data = Some e → catchable e = false → Q e) →
  prog_within P Q (save_to_file w data filename).
Proof.
  intros Hwrite Hfs. unfold save_to_file, open_and_dump.
  assert (∀ t, P (Print t)) as Hprint.
  { intros t. apply Htraffic. constructor. }
  destruct (fs_write w filename data) as [e|] eqn:He; simpl.
  - fold (catchable e). destruct (catchable e) eqn:Hc; simpl.
    + by split; [repeat constructor |].
    + split; [by repeat constructor |]. intros e' [= <-]. by apply Hfs.
  - by split; [repeat constructor |].
Qed.

(** A pure step whose exceptions are all caught by [except Exception]. *)
Lemma within_pure {A} (r : result A) :
  (∀ e, r = Raise e → catchable e = true) → prog_within P Q (lift r).
Proof. intros Hr. apply within_lift. eauto. Qed.

Lemma get_organizations_within : prog_within P Q (get_organizations w).
Proof. exact (fetch_within Organizations). Qed.

Lemma get_networks_within org_id : prog_within P Q (get_networks w org_id).
Proof. exact (fetch_within (Networks org_id)). Qed.

Lemma get_network_inventory_within network_id :
  prog_within P Q (get_network_inventory w network_id).
Proof. exact (fetch_within (NetworkInventory network_id)). Qed.

Lemma get_device_statuses_within org_id :
  prog_within P Q (get_device_statuses w org_id).
Proof. exact (fetch_within (DeviceStatuses org_id)). Qed.

End Within.

#[local] Hint Resolve count_status_catchable get_device_details_catchable
  generate_network_report_catchable : catchable.

(** One step of a chain of binds: a print, a pure step, a fetch. *)
Ltac within_step :=
  first
    [ eapply within_print_any; eassumption
    | apply within_pure; [eassumption |]; intros; eauto with catchable
    | apply get_organizations_within; eassumption
    | apply get_networks_within; eassumption
    | apply get_network_inventory_within; eassumption
    | apply get_device_statuses_within; eassumption
    | apply within_ret ].

Ltac within_chain :=
  repeat (apply within_bind; [within_step | intros ? ?]); try within_step.

Section WithinMain.
Variable w : World.
Variables (P : event → Prop) (Q : exn → Prop).
Hypothesis Hfootprint : ∀ ev, footprint w ev → P ev.
Hypothesis Hpure : ∀ e, catchable e = true → Q e.
Hypothesis Hhttp : ∀ url headers e,
  http w url headers = Raise e → catchable e = false → Q e.
Hypothesis Hfs : ∀ filename data e,
  fs_write w filename data = Some e → catchable e = false → Q e.

Lemma Htraffic_of_footprint : ∀ ev, traffic w ev → P ev.
Proof. intros ev Hev. apply Hfootprint. by constructor. Qed.

Lemma report_and_summary_within first_org first_network devices statuses :
  first_organization w = Ok first_org →
  first_fetched_network w = Ok first_network →
  fetched_devices w = Ok devices →
  fetched_statuses w = Ok statuses →
  prog_within P Q
    (report_and_summary w first_org first_network devices statuses).
Proof.
  pose proof Htraffic_of_footprint as Htraffic.
  intros Horg Hnet Hdevices Hstatuses. unfold report_and_summary.
  apply within_bind; [within_step | intros _ _].
  apply within_bind; [within_step | intros org_name Horg_name].
  apply within_bind; [within_step | intros network_name Hnetwork_name].
  apply within_bind; [within_step | intros report Hreport].
  apply within_bind.
  { apply save_to_file_within; [done | | by eauto].
    apply Hfootprint, footprint_report. unfold built_report.
    simpl in Horg_name, Hnetwork_name, Hreport.
    rewrite Horg. simpl. rewrite Horg_name. simpl. rewrite Hnet. simpl.
    rewrite Hnetwork_name. simpl. rewrite Hdevices. simpl.
    rewrite Hstatuses. simpl. exact Hreport. }
  intros ? ?. within_chain.
Qed.

Lemma main_devices_within first_org first_network devices :
  first_organization w = Ok first_org →
  first_fetched_network w = Ok first_network →
  fetched_devices w = Ok devices →
  prog_within P Q (main_devices w first_org first_network devices).
Proof.
  pose proof Htraffic_of_footprint as Htraffic.
  intros Horg Hnet Hdevices. unfold main_devices.
  do 2 (apply within_bind; [within_step | intros ? ?]).
  apply within_bind.
  { apply save_to_file_within; [done | | by eauto].
    by apply Hfootprint, footprint_devices. }
  intros ? ?.
  apply within_bind; [within_step | intros ? ?].
  apply within_bind; [within_step | intros org_id Hid].
  apply within_bind; [within_step | intros statuses Hstatuses].
  destruct (truthy _); [| within_step].
  apply report_and_summary_within; [done.. |].
  unfold fetched_statuses. rewrite Horg. simpl in Hid |- *.
  rewrite Hid. exact Hstatuses.
Qed.

Lemma main_network_within first_org networks :
  first_organization w = Ok first_org →
  fetched_networks w = Ok networks →
  prog_within P Q (main_network w first_org networks).
Proof.
  pose proof Htraffic_of_footprint as Htraffic.
  intros Horg Hnetworks. unfold main_network.
  apply within_bind.
  { apply save_to_file_within; [done | | by eauto].
    by apply Hfootprint, footprint_networks. }
  intros ? ?.
  apply within_bind; [within_step | intros first_network Hfirst].
  do 2 (apply within_bind; [within_step | intros ? ?]).
  apply within_bind; [within_step | intros network_id Hid].
  apply within_bind; [within_step | intros devices Hdevices].
  assert (first_fetched_network w = Ok first_network) as Hnet.
  { unfold first_fetched_network. rewrite Hnetworks. exact Hfirst. }
  apply main_devices_within; [done.. |].
  unfold fetched_devices. rewrite Hnet. simpl in Hid |- *.
  rewrite Hid. exact Hdevices.
Qed.

Lemma main_organization_within organizations :
  (get_organizations w).2 = Ok organizations →
  prog_within P Q (main_organization w organizations).
Proof.
  pose proof Htraffic_of_footprint as Htraffic.
  intros Horgs. unfold main_organization.
  apply within_bind.
  { apply save_to_file_within; [done | | by eauto].
    by apply Hfootprint, footprint_organizations. }
  intros ? ?.
  apply within_bind; [within_step | intros first_org Hfirst].
  do 2 (apply within_bind; [within_step | intros ? ?]).
  apply within_bind; [within_step | intros org_id Hid].
  apply within_bind; [within_step | intros networks Hnetworks].
  destruct (negb _); [within_step |].
  assert (first_organization w = Ok first_org) as Horg.
  { unfold first_organization. rewrite Horgs. exact Hfirst. }
  apply main_network_within; [done |].
  unfold fetched_networks. rewrite Horg. simpl in Hid |- *.
  rewrite Hid. exact Hnetworks.
Qed.

Lemma main_within :
  prog_within P (λ e, Q e ∧ catchable e = false) (main w).
Proof.
  pose proof Htraffic_of_footprint as Htraffic.
  unfold main. apply within_catch_all; [| intros; by apply Htraffic; constructor].
  do 2 (apply within_bind; [within_step | intros ? ?]).
  destruct (negb _); [within_step |].
  by apply main_organization_within.
Qed.

End WithinMain.

(** ** The complete script: what a run may do *)

(** X7: a run of [main] does nothing but print, send requests to
    endpoints of the dashboard with the headers of [get_headers], and
    write its four files, each holding the data of the run that belong
    under its name: the organizations as fetched, the networks of the
    first organization, the devices of its first network, and the report
    built from these devices and the statuses of that organization. *)
Theorem main_footprint (w : World) : Forall (footprint w) (main w).1.
Proof.
  by apply (main_within w (footprint w) (λ _, True)).
Qed.

(** X8: when the network and the file system fail only with exceptions an
    [except Exception] catches, [main] returns normally whatever the
    dashboard answers. *)
Theorem main_returns (w : World) :
  (∀ url headers e, http w url headers = Raise e → catchable e = true) →
  (∀ filename data e, fs_write w filename data = Some e → catchable e = true) →
  (main w).2 = Ok ().
Proof.
  intros Hhttp Hfs.
  destruct (main_within w (λ _, True) (λ e, catchable e = true))
    as [_ Hmain]; try done.
  - intros url headers e He Hc. by rewrite (Hhttp _ _ _ He) in Hc.
  - intros filename data e He Hc. by rewrite (Hfs _ _ _ He) in Hc.
  - destruct (main w).2 as [[]|e]; [done |].
    destruct (Hmain e eq_refl) as [Hc Hc']. by rewrite Hc in Hc'.
Qed.

(** ** The earlier stages: what a run may do *)

Section WithinStages.
Variable w : World.
Variables (P : event → Prop) (Q : exn → Prop).
Hypothesis Htraffic : ∀ ev, traffic w ev → P ev.
Hypothesis Hpure : ∀ e, catchable e = true → Q e.
Hypothesis Hhttp : ∀ url headers e,
  http w url headers = Raise e → catchable e = false → Q e.

Lemma Task2_print_name_and_id_within x :
  prog_within P Q (Task2.print_name_and_id w x).
Proof. unfold Task2.print_name_and_id. within_chain. Qed.

Lemma Task2_print_device_within device :
  prog_within P Q (Task2.print_device w device).
Proof. unfold Task2.print_device. within_chain. Qed.

Lemma Task2_main_within :
  prog_within P (λ e, Q e ∧ catchable e = false) (Task2.main w).
Proof.
  unfold Task2.main.
  apply within_catch_all; [| intros; by apply Htraffic; constructor].
  do 2 (apply within_bind; [within_step | intros ? ?]).
  destruct (negb _); [within_step |].
  unfold Task2.main_organization.
  do 3 (apply within_bind; [within_step | intros ? ?]).
  apply within_bind;
    [apply within_for_each, Task2_print_name_and_id_within | intros ? ?].
  do 5 (apply within_bind; [within_step | intros ? ?]).
  destruct (negb _); [within_step |].
  unfold Task2.main_network.
  do 3 (apply within_bind; [within_step | intros ? ?]).
  apply within_bind;
    [apply within_for_each, Task2_print_name_and_id_within | intros ? ?].
  do 5 (apply within_bind; [within_step | intros ? ?]).
  destruct (truthy _); [| within_step].
  do 3 (apply within_bind; [within_step | intros ? ?]).
  apply within_for_each, Task2_print_device_within.
Qed.

Lemma Task3_print_device_status_within upper device :
  prog_within P Q (Task3.print_device_status upper w device).
Proof. unfold Task3.print_device_status. within_chain. Qed.

Lemma Task3_main_within upper :
  prog_within P (λ e, Q e ∧ catchable e = false) (Task3.main upper w).
Proof.
  unfold Task3.main.
  apply within_catch_all; [| intros; by apply Htraffic; constructor].
  do 2 (apply within_bind; [within_step | intros ? ?]).
  destruct (negb _); [within_step |].
  unfold Task3.main_organization.
  do 5 (apply within_bind; [within_step | intros ? ?]).
  destruct (negb _); [within_step |].
  unfold Task3.main_network.
  do 10 (apply within_bind; [within_step | intros ? ?]).
  destruct (truthy _); [| within_step].
  unfold Task3.status_summary.
  do 10 (apply within_bind; [within_step | intros ? ?]).
  apply within_for_each, Task3_print_device_status_within.
Qed.

End WithinStages.

(** X9: a run of the listing stage only prints and sends requests to the
    dashboard (it writes no file), and it returns normally when the
    network fails only with exceptions an [except Exception] catches. *)
Theorem Task2_main_safe (w : World) :
  Forall (traffic w) (Task2.main w).1 ∧
  ((∀ url headers e, http w url headers = Raise e → catchable e = true) →
   (Task2.main w).2 = Ok ()).
Proof.
  split.
  - by apply (Task2_main_within w (traffic w) (λ _, True)).
  - intros Hhttp.
    destruct (Task2_main_within w (λ _, True) (λ e, catchable e = true))
      as [_ Hmain]; try done.
    + intros url headers e He Hc. by rewrite (Hhttp _ _ _ He) in Hc.
    + destruct (Task2.main w).2 as [[]|e]; [done |].
      destruct (Hmain e eq_refl) as [Hc Hc']. by rewrite Hc in Hc'.
Qed.

(** X10: a run of the status stage only prints and sends requests to the
    dashboard (it writes no file), and it returns normally when the
    network fails only with exceptions an [except Exception] catches. *)
Theorem Task3_main_safe upper (w : World) :
  Forall (traffic w) (Task3.main upper w).1 ∧
  ((∀ url headers e, http w url headers = Raise e → catchable e = true) →
   (Task3.main upper w).2 = Ok ()).
Proof.
  split.
  - by apply (Task3_main_within w (traffic w) (λ _, True)).
  - intros Hhttp.
    assert (prog_within (λ _, True)
              (λ e, catchable e = true ∧ catchable e = false)
              (Task3.main upper w)) as [_ Hmain].
    { apply Task3_main_within; try done.
      intros url headers e He Hc. by rewrite (Hhttp _ _ _ He) in Hc. }
    destruct (Task3.main upper w).2 as [[]|e]; [done |].
    destruct (Hmain e eq_refl) as [Hc Hc']. by rewrite Hc in Hc'.
Qed.

(** ** Requests of a computation *)

Lemma http_requests_app (t t' : list event) :
  http_requests (t ++ t') = http_requests t ++ http_requests t'.
Proof. apply omap_app. Qed.

Lemma http_requests_cons_print t (l : list event) :
  http_requests (Print t :: l) = http_requests l.
Proof. done. Qed.

Lemma requests_bind {A B} (m : prog A) (f : A → prog B) :
  http_requests (m ≫= f).1 =
  http_requests m.1 ++
  match m.2 with
  | Ok a => http_requests (f a).1
  | Raise _ => []
  end.
Proof.
  destruct m as [t [a|e]]; simpl; [| by rewrite app_nil_r].
  destruct (f a) as [t' r]. apply http_requests_app.
Qed.

Lemma requests_bind_congr {A B} (m : prog A) (f g : A → prog B) :
  (∀ a, m.2 = Ok a → http_requests (f a).1 = http_requests (g a).1) →
  http_requests (m ≫= f).1 = http_requests (m ≫= g).1.
Proof.
  intros H. rewrite !requests_bind. f_equal.
  destruct m.2 as [a|e]; [by apply H | done].
Qed.

Lemma requests_catch_all (w : World) (body : prog unit) s :
  http_requests
    (try_except body [(Exception, λ e, print w [Lit s; FmtExn e])]).1 =
  http_requests body.1.
Proof.
  destruct body as [t [[]|e]]; simpl; [done |].
  destruct (isinstance e Exception); simpl; [| done].
  by rewrite http_requests_app, app_nil_r.
Qed.

Lemma sends_nothing_bind {A B} (m : prog A) (f : A → prog B) :
  sends_nothing m → (∀ a, sends_nothing (f a)) → sends_nothing (m ≫= f).
Proof.
  unfold sends_nothing. intros Hm Hf. rewrite requests_bind, Hm.
  destruct m.2; [apply Hf | done].
Qed.

Lemma sends_nothing_lift {A} (r : result A) : sends_nothing (lift r : prog A).
Proof. done. Qed.

Lemma sends_nothing_print (w : World) t : sends_nothing (print w t).
Proof. unfold sends_nothing, print. by destruct (text_error w t). Qed.

Lemma sends_nothing_save (w : World) data filename :
  sends_nothing (save_to_file w data filename).
Proof.
  unfold sends_nothing, save_to_file, open_and_dump.
  destruct (fs_write w filename data) as [e|]; simpl; [| done].
  by destruct (isinstance e Exception).
Qed.

Lemma sends_nothing_for_each {A} (body : A → prog unit) l :
  (∀ a, sends_nothing (body a)) → sends_nothing (for_each body l).
Proof.
  intros Hbody. induction l as [|a l IH]; [done |].
  simpl. by apply sends_nothing_bind.
Qed.

Ltac sends_nothing :=
  repeat first
    [ apply sends_nothing_lift
    | apply sends_nothing_print
    | apply sends_nothing_save
    | apply sends_nothing_bind; [| intros ?] ].

Lemma report_and_summary_sends_nothing
    (w : World) first_org first_network devices statuses :
  sends_nothing (report_and_summary w first_org first_network devices statuses).
Proof. unfold report_and_summary. sends_nothing. Qed.

Lemma Task3_status_summary_sends_nothing
    upper (w : World) (devices statuses : value) :
  sends_nothing (Task3.status_summary upper w devices statuses).
Proof.
  unfold Task3.status_summary. sends_nothing.
  apply sends_nothing_for_each. intros device.
  unfold Task3.print_device_status. sends_nothing.
Qed.

(** A save that raises nothing is invisible to the requests that follow. *)
Lemma requests_after_save {B} (w : World) data filename (k : prog B) :
  (∀ e, fs_write w filename data = Some e → catchable e = true) →
  http_requests (save_to_file w data filename ≫= λ _, k).1 =
  http_requests k.1.
Proof.
  intros Hfs. rewrite requests_bind, sends_nothing_save. simpl.
  unfold save_to_file, open_and_dump.
  destruct (fs_write w filename data) as [e|] eqn:He; simpl; [| done].
  unfold catchable in Hfs. by rewrite (Hfs e).
Qed.

(** X11: the complete script fetches exactly what the status stage
    fetches: saving the intermediate results and building the report
    changes no request, as long as the file system fails only with
    exceptions an [except Exception] catches. *)
Theorem main_requests_as_Task3 upper (w : World) :
  (∀ filename data e, fs_write w filename data = Some e → catchable e = true) →
  http_requests (main w).1 = http_requests (Task3.main upper w).1.
Proof.
  intros Hfs. unfold main, Task3.main. rewrite !requests_catch_all.
  do 2 (apply requests_bind_congr; intros ? ?).
  destruct (negb _); [done |].
  unfold main_organization, Task3.main_organization.
  rewrite requests_after_save by eauto.
  do 5 (apply requests_bind_congr; intros ? ?).
  destruct (negb _); [done |].
  unfold main_network, Task3.main_network.
  rewrite requests_after_save by eauto.
  do 7 (apply requests_bind_congr; intros ? ?).
  rewrite requests_after_save by eauto.
  do 3 (apply requests_bind_congr; intros ? ?).
  destruct (truthy _); [| done].
  by rewrite report_and_summary_sends_nothing,
    Task3_status_summary_sends_nothing.
Qed.

(** ** Computing with binds *)

Lemma print_Ok (w : World) t :
  text_error w t = None → print w t = ([Print t], Ok ()).
Proof. unfold print. by intros ->. Qed.

Lemma print_result (w : World) t :
  (print w t).2 = Ok () ↔ text_error w t = None.
Proof. unfold print. by destruct (text_error w t). Qed.

Lemma bind_print {B} (w : World) t (f : unit → prog B) :
  text_error w t = None →
  print w t ≫= f = (Print t :: (f ()).1, (f ()).2).
Proof. intros Ht. rewrite (print_Ok _ _ Ht). simpl. by destruct (f ()). Qed.

Lemma prog_eta {A} (m : prog A) : (let '(t, r) := m in (t, r)) = m.
Proof. by destruct m. Qed.

Lemma bind_lift_Raise {A B} e (f : A → prog B) :
  lift (Raise e) ≫= f = ([], Raise e).
Proof. done. Qed.

Lemma prog_bind_result {A B} (m : prog A) (f : A → prog B) :
  (m ≫= f).2 = match m.2 with Ok a => (f a).2 | Raise e => Raise e end.
Proof. destruct m as [t [a|e]]; simpl; [| done]. by destruct (f a). Qed.

Lemma for_each_result {A} (body : A → prog unit) l :
  (for_each body l).2 = Ok () ↔ Forall (λ a, (body a).2 = Ok ()) l.
Proof.
  induction l as [|a l IH]; simpl.
  - split; [constructor | done].
  - rewrite prog_bind_result, Forall_cons.
    destruct (body a).2 as [[]|e]; [| by split; [| intros [[=] _]]].
    rewrite IH. tauto.
Qed.

(** ** The status stage: which devices it can list *)

Lemma Task3_print_device_status_result upper (w : World) (o : dict) :
  (Task3.print_device_status upper w (VDict o)).2 = Ok () ↔
  listable upper w o = true.
Proof.
  unfold Task3.print_device_status, listable. simpl.
  destruct (o !! "status") as [st|]; simpl; [| done].
  destruct (o !! "model") as [model|]; simpl; [| by destruct st].
  destruct st; simpl; try done.
  rewrite !prog_eta, print_result. unfold printable.
  cbn [text_error frag_error].
  repeat match goal with
         | |- context [format_error w ?v] =>
             destruct (format_error w v); [done |]
         end.
  done.
Qed.

(** X12: once the merge has returned, the status stage gets through its
    summary exactly when every merged device has a ['model'] and a string
    for its ['status'], and the stream can write the four values of its
    line: the mark, the name, the model and the status in upper case (a
    missing ['name'] is no obstacle). *)
Theorem Task3_status_summary_returns
    upper (w : World) (devices statuses : value) (outs : list dict) :
  get_device_details devices statuses = Ok (dicts outs) →
  (Task3.status_summary upper w devices statuses).2 = Ok () ↔
  forallb (listable upper w) outs = true.
Proof.
  intros E. unfold Task3.status_summary.
  rewrite E, bind_lift_Ok, bind_print by reflexivity. simpl snd.
  destruct (get_device_details_merged _ _ _ E) as (outs' & [= <-] & Houts).
  destruct (count_status_total "online" _ Houts) as [a Ha].
  destruct (count_status_total "offline" _ Houts) as [b Hb].
  unfold dicts. simpl py_iter. rewrite Ha, Hb.
  pose proof (for_each_result (Task3.print_device_status upper w)
                (VDict <$> outs)) as Hfe.
  destruct (for_each _ _) as [t r]. simpl in Hfe |- *.
  rewrite Hfe, Forall_fmap.
  split.
  - intros H. apply forallb_forall. intros o Ho%list_elem_of_In.
    apply (proj1 (Task3_print_device_status_result upper w o)).
    exact (proj1 (Forall_forall _ _) H o Ho).
  - intros H. apply Forall_forall. intros o Ho%list_elem_of_In.
    apply (proj2 (Task3_print_device_status_result upper w o)).
    exact (proj1 (forallb_forall _ _) H o Ho).
Qed.

(** ** The listing stage: every organization is listed first *)

Lemma for_each_cons {A} (body : A → prog unit) a l :
  for_each body (a :: l) = body a ≫= λ _, for_each body l.
Proof. done. Qed.

Lemma Task2_print_name_and_id_dict (w : World) (o : dict) :
  Task2.print_name_and_id w (VDict o) =
  match o !! "name", o !! "id" with
  | Some name, Some id =>
      print w [Lit "  - "; Fmt name; Lit " (ID: "; Fmt id; Lit ")"]
  | Some _, None => ([], Raise (PyExn KeyError "id"))
  | None, _ => ([], Raise (PyExn KeyError "name"))
  end.
Proof.
  unfold Task2.print_name_and_id. simpl.
  destruct (o !! "name"); [| done]. destruct (o !! "id"); [| done].
  simpl. by destruct (print w _).
Qed.

(** The listing of a list with an unnamed record stops at the first record
    it cannot print: the unnamed one, or one before it whose name or id
    the stream cannot write. *)
Lemma Task2_print_unnamed (w : World) (orgs : list dict) :
  forallb named orgs = false →
  ∃ t e,
    for_each (Task2.print_name_and_id w) (VDict <$> orgs) = (t, Raise e) ∧
    (e = PyExn KeyError "name" ∨ e = PyExn KeyError "id" ∨
     exn_cls e = UnicodeEncodeError) ∧
    (forallb (name_and_id_printable w) orgs = true → exn_cls e = KeyError) ∧
    http_requests t = [].
Proof.
  induction orgs as [|o orgs IH]; [done |].
  rewrite fmap_cons, for_each_cons, Task2_print_name_and_id_dict.
  simpl forallb. unfold named at 1, name_and_id_printable at 1, has_key.
  intros H.
  destruct (o !! "name") as [name|].
  - destruct (o !! "id") as [id|].
    + rewrite !bool_decide_eq_true_2 in H by eauto. simpl in H.
      destruct (IH H) as (t & e & Et & He & Hp & Ht).
      unfold print, printable. simpl.
      destruct (format_error w name) as [msg|].
      { exists [], (PyExn UnicodeEncodeError msg). split_and!; auto. done. }
      destruct (format_error w id) as [msg|].
      { exists [], (PyExn UnicodeEncodeError msg). split_and!; auto. done. }
      rewrite Et.
      exists (Print [Lit "  - "; Fmt name; Lit " (ID: "; Fmt id; Lit ")"] :: t), e.
      by split_and!.
    + exists [], (PyExn KeyError "id"). split_and!; auto.
  - exists [], (PyExn KeyError "name"). split_and!; auto.
Qed.


(** ** get_device_details: where a status comes from *)

Lemma build_status_lookup_provenance (S : list dict) lk k st :
  build_status_lookup (VDict <$> S) ∅ = Ok lk →
  lk !! k = Some st →
  ∃ s, s ∈ S ∧ serial_key s = Some k ∧ s !! "status" = Some st.
Proof.
  intros E Hk.
  destruct (build_status_lookup_entries _ _ _ E) as [-> _].
  rewrite (right_id_L ∅ (∪)) in Hk.
  apply elem_of_list_to_map_2 in Hk. rewrite elem_of_reverse in Hk.
  unfold status_entries in Hk. apply list_elem_of_omap in Hk as (s & Hs & Hk).
  exists s. split; [done |].
  destruct (serial_key s) as [k'|]; [| done]. simpl in Hk.
  destruct (s !! "status") as [st'|]; [| done]. by injection Hk as -> ->.
Qed.

(** X14: the merge invents no status: the status of every merged device is
    either the string ["unknown"] or the status of a status record that
    carries the device's serial. *)
Theorem get_device_details_status_provenance (D S outs : list dict) i o :
  get_device_details (dicts D) (dicts S) = Ok (dicts outs) →
  outs !! i = Some o →
  o !! "status" = Some (VStr "unknown") ∨
  ∃ s, s ∈ S ∧ is_Some (serial_key s) ∧ serial_key s = serial_key o ∧
       s !! "status" = o !! "status".
Proof.
  intros (lk & outs' & Elk & [= Eouts] & HD)%get_device_details_Ok Hi.
  assert (outs' !! i = Some (VDict o)) as Hi'.
  { by rewrite <-Eouts, list_lookup_fmap, Hi. }
  destruct (Forall2_lookup_r _ _ _ _ _ HD Hi') as (d & _ & Hd).
  apply add_status_Ok in Hd as (v & h & Ev & Eh & [= ->]).
  rewrite lookup_insert_eq.
  destruct (lk !! h) as [st|] eqn:Hlk; [right | by left].
  destruct (build_status_lookup_provenance _ _ _ _ Elk Hlk) as (s & Hs & Hk & Hst).
  exists s. split_and!; [done | by rewrite Hk | | done].
  unfold serial_key at 2. by rewrite lookup_insert_ne, Ev, Eh.
Qed.

(** ** The fetchers: one request each *)

Lemma make_api_request_requests (w : World) endpoint :
  http_requests (make_api_request w endpoint).1 =
  match get_headers w with
  | Ok _ => [Lit base_url :: endpoint]
  | Raise _ => []
  end.
Proof.
  unfold make_api_request, requests_get_json.
  destruct (get_headers w) as [headers|e] eqn:Hh; simpl.
  - destruct (http w (Lit base_url :: endpoint) headers) as [body|e]; simpl;
      [done |].
    destruct (isinstance e HTTPError); [done |].
    destruct (isinstance e RequestException); [done |].
    by destruct (isinstance e Exception).
  - assert (e = missing_api_key) as ->; [| done].
    unfold get_headers, get_api_key in Hh.
    destruct (negb _); [by injection Hh as <- | done].
Qed.

Lemma fetcher_requests (w : World) (f : fetcher (float := float)) :
  http_requests (fetch w f).1 =
  match get_headers w with
  | Ok _ => [Lit base_url :: fetcher_endpoint f]
  | Raise _ => []
  end.
Proof.
  rewrite <-make_api_request_requests.
  destruct f; simpl;
    unfold get_organizations, get_networks, get_network_inventory,
      get_device_availabilities, get_device_statuses;
    rewrite requests_bind; simpl;
    by destruct (make_api_request _ _).2; rewrite app_nil_r.
Qed.

(** X15: a fetcher sends exactly one request, to the base URL followed by
    its own path, whatever the answer; it sends none only when there is no
    API key to send it with. *)
Theorem fetch_requests (w : World) (f : fetcher (float := float)) :
  http_requests (fetch w f).1 =
  match get_headers w with
  | Ok _ => [Lit base_url :: fetcher_endpoint f]
  | Raise _ => []
  end.
Proof. apply fetcher_requests. Qed.

(** ** The complete script: interruptions *)

(** X16: an exception that [except Exception] does not catch (a keyboard
    interrupt) raised by the first request is neither reported nor
    swallowed: it leaves [main] as it is, and nothing else is done. *)
Theorem main_interrupted (w : World) headers e :
  get_headers w = Ok headers →
  http w [Lit base_url; Lit "/organizations"] headers = Raise e →
  catchable e = false →
  main w =
    ([Print [Lit "Fetching Meraki organization data..."];
      HttpGet [Lit base_url; Lit "/organizations"] headers],
     Raise e).
Proof.
  unfold catchable. intros Hh He Hc.
  assert (isinstance e HTTPError = false) as H1.
  { destruct (isinstance e HTTPError) eqn:H; [| done].
    rewrite <-Hc. unfold isinstance in *. by destruct (exn_cls e). }
  assert (isinstance e RequestException = false) as H2.
  { destruct (isinstance e RequestException) eqn:H; [| done].
    rewrite <-Hc. unfold isinstance in *. by destruct (exn_cls e). }
  unfold main, get_organizations, make_api_request, requests_get_json.
  rewrite Hh. simpl. rewrite He. simpl. rewrite H1, H2, Hc. simpl.
  by rewrite Hc.
Qed.

(** ** The complete script: the order of its requests *)

Lemma requests_bind_quiet {A B} (m : prog A) (f : A → prog B) :
  sends_nothing m →
  http_requests (m ≫= f).1 =
  match m.2 with
  | Ok a => http_requests (f a).1
  | Raise _ => []
  end.
Proof. intros Hm. by rewrite requests_bind, Hm. Qed.

Lemma requests_bind_fetch {B} (w : World) headers
    (f : fetcher (float := float)) (k : value → prog B) :
  get_headers w = Ok headers →
  http_requests (fetch w f ≫= k).1 =
  (Lit base_url :: fetcher_endpoint f) ::
  match (fetch w f).2 with
  | Ok a => http_requests (k a).1
  | Raise _ => []
  end.
Proof. intros Hh. by rewrite requests_bind, fetcher_requests, Hh. Qed.

(** Peels the quiet head of a chain of binds off the requests in [HR]. *)
Ltac peel_quiet HR :=
  rewrite requests_bind_quiet in HR by sends_nothing;
  cbn [lift snd] in HR.

Lemma main_network_requests (w : World) headers first_org org_id networks :
  get_headers w = Ok headers →
  getitem first_org "id" = Ok org_id →
  ∃ network_id,
    http_requests (main_network w first_org networks).1 `prefix_of`
      [Lit base_url :: fetcher_endpoint (NetworkInventory network_id);
       Lit base_url :: fetcher_endpoint (DeviceStatuses org_id)].
Proof.
  intros Hh Hid.
  cut (∀ R, R = http_requests (main_network w first_org networks).1 →
            ∃ network_id,
              R `prefix_of`
                [Lit base_url :: fetcher_endpoint (NetworkInventory network_id);
                 Lit base_url :: fetcher_endpoint (DeviceStatuses org_id)]);
    [by eauto |].
  intros R HR. unfold main_network, main_devices in HR.
  peel_quiet HR.
  destruct (save_to_file _ _ _).2; [| subst; exists VNone; apply prefix_nil].
  peel_quiet HR.
  destruct (getitem0 networks) as [first_network|];
    [| subst; exists VNone; apply prefix_nil].
  peel_quiet HR.
  destruct (getitem first_network "name") as [name|];
    [| subst; exists VNone; apply prefix_nil].
  peel_quiet HR.
  destruct (print w _).2; [| subst; exists VNone; apply prefix_nil].
  peel_quiet HR.
  destruct (getitem first_network "id") as [network_id|];
    [| subst; exists VNone; apply prefix_nil].
  exists network_id.
  change (get_network_inventory w network_id)
    with (fetch w (NetworkInventory network_id)) in HR.
  rewrite (requests_bind_fetch _ _ _ _ Hh) in HR.
  destruct (fetch w (NetworkInventory network_id)).2 as [devices|];
    [| subst; by eexists [_]].
  peel_quiet HR.
  destruct (py_len devices); [| subst; by eexists [_]].
  peel_quiet HR.
  destruct (print w _).2; [| subst; by eexists [_]].
  peel_quiet HR.
  destruct (save_to_file _ _ _).2; [| subst; by eexists [_]].
  peel_quiet HR.
  destruct (print w _).2; [| subst; by eexists [_]].
  peel_quiet HR. rewrite Hid in HR.
  change (get_device_statuses w org_id)
    with (fetch w (DeviceStatuses org_id)) in HR.
  rewrite (requests_bind_fetch _ _ _ _ Hh) in HR.
  destruct (fetch w (DeviceStatuses org_id)).2 as [statuses|];
    [| by subst].
  destruct (truthy statuses); [| by subst].
  rewrite report_and_summary_sends_nothing in HR. by subst.
Qed.

Lemma main_sends_nothing_without_headers (w : World) e :
  get_headers w = Raise e → sends_nothing (main w).
Proof.
  intros Hh.
  assert (∀ endpoint, sends_nothing (make_api_request w endpoint)) as Hreq.
  { intros endpoint. unfold sends_nothing.
    by rewrite make_api_request_requests, Hh. }
  assert (∀ f, sends_nothing (fetch w f)) as Hfetch.
  { intros f. unfold sends_nothing. by rewrite fetcher_requests, Hh. }
  unfold sends_nothing, main. rewrite requests_catch_all.
  apply sends_nothing_bind; [apply sends_nothing_print | intros _].
  apply sends_nothing_bind; [apply (Hfetch Organizations) | intros orgs].
  destruct (negb _); [apply sends_nothing_print |].
  unfold main_organization. sends_nothing; [apply Hreq |].
  destruct (negb _); [apply sends_nothing_print |].
  unfold main_network. sends_nothing; [apply Hreq.. |].
  destruct (truthy _); [apply report_and_summary_sends_nothing |].
  apply sends_nothing_print.
Qed.

(** X17: a run of [main] sends at most four requests, in this order: the
    organizations, the networks of one organization, the devices of one
    network, the device statuses of that same organization. *)
Theorem main_requests_in_order (w : World) :
  ∃ org_id network_id,
    http_requests (main w).1 `prefix_of`
      [Lit base_url :: fetcher_endpoint Organizations;
       Lit base_url :: fetcher_endpoint (Networks org_id);
       Lit base_url :: fetcher_endpoint (NetworkInventory network_id);
       Lit base_url :: fetcher_endpoint (DeviceStatuses org_id)].
Proof.
  destruct (get_headers w) as [headers|e] eqn:Hh.
  2: { exists VNone, VNone.
       rewrite (main_sends_nothing_without_headers _ _ Hh).
       apply prefix_nil. }
  cut (∀ R, R = http_requests (main w).1 →
            ∃ org_id network_id,
              R `prefix_of`
                [Lit base_url :: fetcher_endpoint Organizations;
                 Lit base_url :: fetcher_endpoint (Networks org_id);
                 Lit base_url :: fetcher_endpoint (NetworkInventory network_id);
                 Lit base_url :: fetcher_endpoint (DeviceStatuses org_id)]);
    [by eauto |].
  intros R HR. unfold main in HR. rewrite requests_catch_all in HR.
  peel_quiet HR. cbn [print text_error frag_error emit snd] in HR.
  change (get_organizations w) with (fetch w Organizations) in HR.
  rewrite (requests_bind_fetch _ _ _ _ Hh) in HR.
  destruct (fetch w Organizations).2 as [organizations|];
    [| subst; exists VNone, VNone; by eexists [_; _; _]].
  destruct (negb _); [subst; exists VNone, VNone; by eexists [_; _; _] |].
  unfold main_organization in HR.
  peel_quiet HR.
  destruct (save_to_file _ _ _).2;
    [| subst; exists VNone, VNone; by eexists [_; _; _]].
  peel_quiet HR.
  destruct (getitem0 organizations) as [first_org|];
    [| subst; exists VNone, VNone; by eexists [_; _; _]].
  peel_quiet HR.
  destruct (getitem first_org "name") as [name|];
    [| subst; exists VNone, VNone; by eexists [_; _; _]].
  peel_quiet HR.
  destruct (print w _).2; [| subst; exists VNone, VNone; by eexists [_; _; _]].
  peel_quiet HR.
  destruct (getitem first_org "id") as [org_id|] eqn:Hid;
    [| subst; exists VNone, VNone; by eexists [_; _; _]].
  exists org_id.
  change (get_networks w org_id) with (fetch w (Networks org_id)) in HR.
  rewrite (requests_bind_fetch _ _ _ _ Hh) in HR.
  destruct (fetch w (Networks org_id)).2 as [networks|];
    [| subst; exists VNone; by eexists [_; _]].
  destruct (negb _); [subst; exists VNone; by eexists [_; _] |].
  destruct (main_network_requests w headers first_org org_id networks Hh Hid)
    as (network_id & tail & Htail).
  exists network_id, tail. subst R. simpl. do 2 f_equal. exact Htail.
Qed.

End MoreProperties.

(** * Worked examples *)

(** The scenario of the specification: the merge and the report. *)
Example scenario_merge :
  get_device_details (dicts scenario_devices) (dicts scenario_statuses)
  = Ok (dicts scenario_detailed).
Proof. vm_compute. reflexivity. Qed.

Example scenario_report_value :
  generate_network_report w_full (VStr "Org") (VStr "Site")
    (dicts scenario_devices) (dicts scenario_statuses)
  = Ok scenario_report.
Proof. vm_compute. reflexivity. Qed.

Lemma get_device_details_preserves_devices_witness :
  get_device_details (dicts scenario_devices) (dicts scenario_statuses)
    = Ok (dicts scenario_detailed) ∧
  ∃ outs : list object,
    dicts scenario_detailed = dicts outs ∧
    length outs = length scenario_devices ∧
    ∀ i d, scenario_devices !! i = Some d →
      ∃ o, outs !! i = Some o ∧
           is_Some (o !! "status") ∧
           ∀ f, f ≠ "status" → o !! f = d !! f.
Proof.
  split; [vm_compute; reflexivity |].
  apply (get_device_details_preserves_devices
           scenario_devices scenario_statuses).
  vm_compute. reflexivity.
Defined.

Lemma get_device_details_status_witness :
  get_device_details (dicts scenario_devices) (dicts scenario_statuses)
    = Ok (VList (VDict <$> scenario_detailed)) ∧
  (VDict <$> scenario_detailed) !! 1
    = Some (VDict (<["status" := VStr "unknown"]> device_B)) ∧
  (VDict <$> scenario_detailed) !! 0
    = Some (VDict (<["status" := VStr "online"]> device_A)).
Proof.
  split; [vm_compute; reflexivity |]. split.
  - apply (get_device_details_status scenario_devices scenario_statuses
             _ 1 device_B (KStr "B")); [vm_compute; reflexivity.. |].
    repeat constructor.
  - apply (proj2 (get_device_details_status scenario_devices scenario_statuses
             _ 0 device_A (KStr "A") eq_refl eq_refl eq_refl)
             0 status_A_online (VStr "online")); [vm_compute; reflexivity.. |].
    intros [|j'] s'; [done |]. simpl. by rewrite lookup_nil.
Defined.

Lemma get_device_details_last_write_wins_witness :
  get_device_details (dicts [device_A])
      (dicts [status_A_offline; status_A_online; status_A_offline; status_A_online])
    = Ok (VList [VDict (<["status" := VStr "online"]> device_A)]) ∧
  [VDict (<["status" := VStr "online"]> device_A)] !! 0
    = Some (VDict (<["status" := VStr "online"]> device_A)).
Proof.
  split; [vm_compute; reflexivity |].
  apply (get_device_details_last_write_wins [device_A]
           [status_A_offline; status_A_online; status_A_offline; status_A_online]
           _ 0 device_A (KStr "A") 3 status_A_online (VStr "online"));
    [vm_compute; reflexivity.. |].
  intros j' s' Hj' _. apply lookup_lt_Some in Hj'. simpl in Hj'. lia.
Defined.

Lemma get_device_details_no_raise_witness :
  keys_present scenario_devices scenario_statuses = true ∧
  serials_hashable scenario_devices scenario_statuses = true ∧
  ∃ out, get_device_details (dicts scenario_devices) (dicts scenario_statuses)
         = Ok out.
Proof.
  split; [vm_compute; reflexivity |]. split; [vm_compute; reflexivity |].
  apply (get_device_details_no_raise scenario_devices scenario_statuses);
    vm_compute; reflexivity.
Defined.

Lemma get_device_details_unhashable_serial :
  keys_present [device_list_serial] scenario_statuses = true ∧
  get_device_details (dicts [device_list_serial]) (dicts scenario_statuses)
    = Raise (PyExn TypeError "unhashable type: 'list'").
Proof. split_and!; vm_compute; reflexivity. Qed.

Lemma generate_network_report_summary_witness :
  generate_network_report w_full (VStr "Org") (VStr "Site")
      (VList (VDict <$> scenario_devices)) (dicts scenario_statuses)
    = Ok scenario_report ∧
  ∃ (summary : object) (total online offline : Z),
    getitem scenario_report "summary" = Ok (VDict summary) ∧
    summary !! "total_devices" = Some (VInt total) ∧
    summary !! "online_devices" = Some (VInt online) ∧
    summary !! "offline_devices" = Some (VInt offline) ∧
    summary !! "availability_percentage" =
      Some (if (total =? 0)%Z then VInt 0
            else VFloat (float_round
                           (float_mul_int (int_truediv online total) 100) 2)) ∧
    total = Z.of_nat (length (VDict <$> scenario_devices)) ∧
    (0 ≤ online)%Z ∧ (0 ≤ offline)%Z ∧
    (online + offline ≤ total)%Z.
Proof.
  split; [vm_compute; reflexivity |].
  apply (generate_network_report_summary w_full (VStr "Org") (VStr "Site")
           (VDict <$> scenario_devices) (dicts scenario_statuses)).
  vm_compute. reflexivity.
Defined.

(** The organizations request is answered with an empty JSON object, the
    networks request with an empty JSON array: neither request returned
    the null result, both fetchers return the empty list, and the first
    does not return the body. *)
Lemma fetchers_on_empty_answers :
  make_api_request w_empty_answers [Lit "/organizations"] =
    ([get_event [Lit "/organizations"]], Ok (VDict ∅)) ∧
  get_organizations w_empty_answers =
    ([get_event [Lit "/organizations"]], Ok (VList [])) ∧
  make_api_request w_empty_answers
      [Lit "/organizations/"; Fmt (VStr "1001"); Lit "/networks"] =
    (networks_request, Ok (VList [])) ∧
  get_networks w_empty_answers (VStr "1001") =
    (networks_request, Ok (VList [])).
Proof. split_and!; vm_compute; reflexivity. Qed.

Lemma fetch_coalesces_false_results_witness :
  make_api_request w_full (fetcher_endpoint (Networks (VStr "1001"))) =
    ([HttpGet [Lit base_url; Lit "/organizations/"; Fmt (VStr "1001");
               Lit "/networks"] demo_headers],
     Ok (dicts [demo_network])) ∧
  fetch w_full (Networks (VStr "1001")) =
    ([HttpGet [Lit base_url; Lit "/organizations/"; Fmt (VStr "1001");
               Lit "/networks"] demo_headers],
     Ok (dicts [demo_network])) ∧
  (dicts [demo_network] = VNone →
   fetch w_full (Networks (VStr "1001")) =
    ([HttpGet [Lit base_url; Lit "/organizations/"; Fmt (VStr "1001");
               Lit "/networks"] demo_headers],
     Ok (VList []))).
Proof.
  split; [vm_compute; reflexivity |].
  apply (fetch_coalesces_false_results w_full (Networks (VStr "1001"))
           [HttpGet [Lit base_url; Lit "/organizations/"; Fmt (VStr "1001");
                     Lit "/networks"] demo_headers]
           (dicts [demo_network])).
  vm_compute. reflexivity.
Defined.


Lemma missing_api_key_fails_before_request_witness :
  (environ w_no_key !! "MERAKI_API_KEY" = None ∨
   environ w_no_key !! "MERAKI_API_KEY" = Some "") ∧
  get_api_key w_no_key = Raise missing_api_key ∧
  exn_cls missing_api_key = ValueError ∧
  (∀ endpoint,
     make_api_request w_no_key endpoint =
       ([Print [Lit "Unexpected error: "; FmtExn missing_api_key]], Ok VNone)) ∧
  (∀ endpoint, http_requests (make_api_request w_no_key endpoint).1 = []) ∧
  http_requests (main w_no_key).1 = [].
Proof.
  split; [left; reflexivity |].
  apply (missing_api_key_fails_before_request w_no_key). left. reflexivity.
Defined.

Lemma main_short_circuits_witness :
  main w_no_organizations =
    ([Print [Lit "Fetching Meraki organization data..."];
      get_event [Lit "/organizations"];
      Print [Lit "HTTP error occurred: "; FmtExn unauthorized];
      Print [Lit "No organizations found or API error occurred."]],
     Ok ()) ∧
  main w_no_networks =
    (events_to_networks ++ networks_request ++
     [Print [Lit "No networks found."]],
     Ok ()) ∧
  main w_no_statuses =
    (events_to_statuses (dicts scenario_devices) 2 ++ statuses_request ++
     [Print [Lit "Unable to retrieve device status information."]],
     Ok ()) ∧
  (∃ rest,
     (main w_no_devices).1 =
       events_to_inventory ++ inventory_request ++
       [Print [Lit "Devices: "; Fmt (VInt 0); Lit " found"]] ++
       saved_events "devices.json" (VList []) ++
       [Print [Lit (nl +:+ "Fetching device status information...")]] ++
       (get_device_statuses w_no_devices (VStr "1001")).1 ++ rest) ∧
  (∃ rest,
     (main w_no_devices).1 =
       events_to_statuses (VList []) 0 ++ statuses_request ++
       Print [Lit (nl +:+ "Generating network report...")] :: rest ∧
     head rest = Some (WriteFile "network_report.json" empty_report)).
Proof.
  assert (∀ w, get_organizations w =
                 ([get_event [Lit "/organizations"]], Ok (dicts [demo_org])) →
               fs_write w = writable →
               reaches_get_networks w events_to_networks
                 (VDict demo_org) (VStr "1001")) as Hreach.
  { intros w Horgs Hfs.
    exists [get_event [Lit "/organizations"]], (dicts [demo_org]),
      (saved_events "organizations.json" (dicts [demo_org])), true, (VStr "Org").
    split_and!; [exact Horgs | try reflexivity..].
    unfold save_to_file, open_and_dump. rewrite Hfs. reflexivity. }
  assert (∀ w, get_organizations w =
                 ([get_event [Lit "/organizations"]], Ok (dicts [demo_org])) →
               get_networks w (VStr "1001") =
                 (networks_request, Ok (dicts [demo_network])) →
               fs_write w = writable →
               reaches_get_network_inventory w events_to_inventory
                 (VDict demo_org) (VStr "1001")
                 (VDict demo_network) (VStr "N_1")) as Hreach'.
  { intros w Horgs Hnets Hfs.
    exists events_to_networks, networks_request, (dicts [demo_network]),
      (saved_events "networks.json" (dicts [demo_network])), true, (VStr "Site").
    split_and!; [by apply Hreach | exact Hnets | try reflexivity..].
    unfold save_to_file, open_and_dump. rewrite Hfs. reflexivity. }
  assert (reaches_get_device_statuses w_no_devices
            (events_to_statuses (VList []) 0)
            (VDict demo_org) (VDict demo_network) (VList []) (VStr "1001"))
    as Hreach''.
  { exists events_to_inventory, (VStr "N_1"), inventory_request, 0%Z,
      (saved_events "devices.json" (VList [])), true.
    split_and!; [apply Hreach'; reflexivity | reflexivity..]. }
  split_and!.
  - apply (proj1 (main_short_circuits w_no_organizations)
             [get_event [Lit "/organizations"];
              Print [Lit "HTTP error occurred: "; FmtExn unauthorized]]
             (VList [])); reflexivity.
  - apply (proj1 (proj2 (main_short_circuits w_no_networks))
             events_to_networks (VDict demo_org) (VStr "1001")
             networks_request (VList []));
      [apply Hreach; reflexivity | reflexivity..].
  - apply (proj1 (proj2 (proj2 (main_short_circuits w_no_statuses)))
             (events_to_statuses (dicts scenario_devices) 2)
             (VDict demo_org) (VDict demo_network) (dicts scenario_devices)
             (VStr "1001") statuses_request (VList []));
      [| reflexivity..].
    exists events_to_inventory, (VStr "N_1"), inventory_request, 2%Z,
      (saved_events "devices.json" (dicts scenario_devices)), true.
    split_and!; [apply Hreach'; reflexivity | reflexivity..].
  - apply (proj1 (proj2 (proj2 (proj2 (main_short_circuits w_no_devices))))
             events_to_inventory (VDict demo_org) (VStr "1001")
             (VDict demo_network) (VStr "N_1") inventory_request (VList [])
             (saved_events "devices.json" (VList [])) true);
      [apply Hreach'; reflexivity | reflexivity..].
  - destruct (proj2 (proj2 (proj2 (proj2 (main_short_circuits w_no_devices))))
                (events_to_statuses (VList []) 0)
                (VDict demo_org) (VDict demo_network) (VList []) (VStr "1001")
                statuses_request (dicts scenario_statuses)
                Hreach'' eq_refl eq_refl) as (rest & Hrest & Hreport).
    exists rest. split; [exact Hrest |].
    apply (Hreport (VStr "Org") (VStr "Site") empty_report);
      [reflexivity | reflexivity | vm_compute; reflexivity].
Defined.

(** The inventory comes back empty; the run goes on to save it and to
    fetch the statuses, and with the statuses of this dashboard it writes
    a report. *)
Lemma main_continues_on_empty_inventory :
  get_network_inventory w_no_devices (VStr "N_1") =
    (inventory_request, Ok (VList [])) ∧
  file_writes (main w_no_devices).1 =
    ["organizations.json"; "networks.json"; "devices.json";
     "network_report.json"] ∧
  http_requests (main w_no_devices).1 =
    [ [Lit base_url; Lit "/organizations"];
      [Lit base_url; Lit "/organizations/"; Fmt (VStr "1001"); Lit "/networks"];
      [Lit base_url; Lit "/networks/"; Fmt (VStr "N_1"); Lit "/devices"];
      [Lit base_url; Lit "/organizations/"; Fmt (VStr "1001");
       Lit "/devices/statuses"] ] ∧
  main w_no_devices =
    (events_to_statuses (VList []) 0 ++ statuses_request ++
     [Print [Lit (nl +:+ "Generating network report...")]] ++
     saved_events "network_report.json" empty_report ++
     [Print [Lit (nl +:+ "Network Report Summary:")];
      Print [Lit "  Organization: "; Fmt (VStr "Org")];
      Print [Lit "  Network: "; Fmt (VStr "Site")];
      Print [Lit "  Total Devices: "; Fmt (VInt 0)];
      Print [Lit "  Online: "; Fmt (VInt 0)];
      Print [Lit "  Offline: "; Fmt (VInt 0)];
      Print [Lit "  Availability: "; Fmt (VInt 0); Lit "%"]],
     Ok ()).
Proof. split_and!; vm_compute; reflexivity. Qed.

(** ** Worked examples of the further properties *)

Lemma get_device_details_missing_key_witness :
  serials_hashable [device_A; device_no_serial] scenario_statuses = true ∧
  keys_present [device_A; device_no_serial] scenario_statuses = false ∧
  get_device_details (dicts [device_A; device_no_serial])
      (dicts scenario_statuses)
    = Raise (PyExn KeyError "serial").
Proof.
  split; [vm_compute; reflexivity |]. split; [vm_compute; reflexivity |].
  apply (get_device_details_missing_key
           [device_A; device_no_serial] scenario_statuses);
    vm_compute; reflexivity.
Defined.

Lemma get_device_details_idempotent_witness :
  get_device_details (dicts scenario_devices) (dicts scenario_statuses)
    = Ok (dicts scenario_detailed) ∧
  get_device_details (dicts scenario_detailed) (dicts scenario_statuses)
    = Ok (dicts scenario_detailed).
Proof.
  split; [vm_compute; reflexivity |].
  apply (get_device_details_idempotent
           (dicts scenario_devices) (dicts scenario_statuses)).
  vm_compute. reflexivity.
Defined.

Lemma get_device_details_status_order_witness :
  [status_A_online; status_B_offline] ≡ₚ [status_B_offline; status_A_online] ∧
  NoDup (serial_keys [status_A_online; status_B_offline]) ∧
  get_device_details (dicts scenario_devices)
      (dicts [status_B_offline; status_A_online])
    = Ok (dicts [<["status" := VStr "online"]> device_A;
                 <["status" := VStr "offline"]> device_B]).
Proof.
  assert (NoDup (serial_keys [status_A_online; status_B_offline])) as Hnd.
  { apply (bool_decide_unpack _). vm_compute. exact I. }
  split; [apply perm_swap |]. split; [exact Hnd |].
  apply (get_device_details_status_order scenario_devices
           [status_A_online; status_B_offline]
           [status_B_offline; status_A_online]);
    [apply perm_swap | exact Hnd | vm_compute; reflexivity].
Defined.

Lemma get_device_details_status_provenance_witness :
  get_device_details (dicts scenario_devices) (dicts scenario_statuses)
    = Ok (dicts scenario_detailed) ∧
  scenario_detailed !! 0 = Some (<["status" := VStr "online"]> device_A) ∧
  ((<["status" := VStr "online"]> device_A) !! "status"
     = Some (VStr "unknown") ∨
   ∃ s, s ∈ scenario_statuses ∧ is_Some (serial_key s) ∧
        serial_key s = serial_key (<["status" := VStr "online"]> device_A) ∧
        s !! "status" = (<["status" := VStr "online"]> device_A) !! "status").
Proof.
  split; [vm_compute; reflexivity |]. split; [reflexivity |].
  apply (get_device_details_status_provenance
           scenario_devices scenario_statuses scenario_detailed 0);
    [vm_compute; reflexivity | reflexivity].
Defined.

Lemma make_api_request_success_witness :
  environ w_full !! "MERAKI_API_KEY" = Some "secret" ∧
  "secret" ≠ "" ∧
  http w_full [Lit base_url; Lit "/organizations"] (api_headers "secret")
    = Ok (dicts [demo_org]) ∧
  make_api_request w_full [Lit "/organizations"] =
    ([HttpGet [Lit base_url; Lit "/organizations"] (api_headers "secret")],
     Ok (dicts [demo_org])).
Proof.
  split; [reflexivity |]. split; [discriminate |].
  split; [vm_compute; reflexivity |].
  apply (make_api_request_success w_full [Lit "/organizations"] "secret");
    [reflexivity | discriminate | vm_compute; reflexivity].
Defined.


(** The demonstration dashboards fail only with HTTP errors. *)
Lemma demo_http_catchable a url headers e :
  (∀ e', organizations a = Raise e' → catchable e' = true) →
  (∀ e', networks a = Raise e' → catchable e' = true) →
  (∀ e', devices a = Raise e' → catchable e' = true) →
  (∀ e', statuses a = Raise e' → catchable e' = true) →
  demo_http a url headers = Raise e → catchable e = true.
Proof.
  intros H1 H2 H3 H4. unfold demo_http.
  repeat case_match; eauto. by intros [= <-].
Qed.

Lemma main_returns_witness :
  (∀ url headers e, http w_read_only url headers = Raise e → catchable e = true) ∧
  (∀ filename data e,
     fs_write w_read_only filename data = Some e → catchable e = true) ∧
  (main w_read_only).2 = Ok ().
Proof.
  assert (∀ url headers e,
            http w_read_only url headers = Raise e → catchable e = true) as Hhttp.
  { intros url headers e. by apply demo_http_catchable. }
  assert (∀ filename data e,
            fs_write w_read_only filename data = Some e → catchable e = true)
    as Hfs.
  { by intros filename data e [= <-]. }
  split; [exact Hhttp |]. split; [exact Hfs |].
  exact (main_returns w_read_only Hhttp Hfs).
Defined.

Lemma main_requests_as_Task3_witness :
  (∀ filename data e,
     fs_write w_read_only filename data = Some e → catchable e = true) ∧
  http_requests (main w_read_only).1 =
  http_requests (Task3.main upper_string w_read_only).1.
Proof.
  assert (∀ filename data e,
            fs_write w_read_only filename data = Some e → catchable e = true)
    as Hfs.
  { by intros filename data e [= <-]. }
  split; [exact Hfs |].
  exact (main_requests_as_Task3 upper_string w_read_only Hfs).
Defined.

Lemma main_interrupted_witness :
  get_headers w_interrupted = Ok demo_headers ∧
  http w_interrupted [Lit base_url; Lit "/organizations"] demo_headers
    = Raise interrupt ∧
  catchable interrupt = false ∧
  main w_interrupted =
    ([Print [Lit "Fetching Meraki organization data..."];
      HttpGet [Lit base_url; Lit "/organizations"] demo_headers],
     Raise interrupt).
Proof.
  split; [vm_compute; reflexivity |]. split; [vm_compute; reflexivity |].
  split; [reflexivity |].
  apply (main_interrupted w_interrupted demo_headers interrupt);
    vm_compute; reflexivity.
Defined.

Lemma Task2_main_safe_witness :
  Forall (traffic w_full) (Task2.main w_full).1 ∧
  (Task2.main w_full).2 = Ok ().
Proof.
  destruct (Task2_main_safe w_full) as [Htraffic Hreturns].
  split; [exact Htraffic |]. apply Hreturns.
  intros url headers e. by apply demo_http_catchable.
Defined.

Lemma Task3_main_safe_witness :
  Forall (traffic w_full) (Task3.main upper_string w_full).1 ∧
  (Task3.main upper_string w_full).2 = Ok ().
Proof.
  destruct (Task3_main_safe upper_string w_full) as [Htraffic Hreturns].
  split; [exact Htraffic |]. apply Hreturns.
  intros url headers e. by apply demo_http_catchable.
Defined.

Lemma Task3_status_summary_returns_witness :
  get_device_details (dicts scenario_devices) (dicts scenario_statuses)
    = Ok (dicts scenario_detailed) ∧
  forallb (listable upper_string w_full) scenario_detailed = true ∧
  (Task3.status_summary upper_string w_full
     (dicts scenario_devices) (dicts scenario_statuses)).2 = Ok () ∧
  forallb (listable upper_string w_full)
    [<["status" := VStr "unknown"]> device_no_model] = false ∧
  (Task3.status_summary upper_string w_full
     (dicts [device_no_model]) (dicts scenario_statuses)).2
    = Raise (PyExn KeyError "model") ∧
  forallb (listable upper_string w_full)
    [<["status" := VStr "unknown"]> device_unprintable] = false ∧
  exn_cls <$>
    match (Task3.status_summary upper_string w_full
             (dicts [device_unprintable]) (dicts scenario_statuses)).2 with
    | Ok _ => None
    | Raise e => Some e
    end = Some UnicodeEncodeError.
Proof.
  split; [vm_compute; reflexivity |]. split; [vm_compute; reflexivity |].
  split.
  - apply (Task3_status_summary_returns upper_string w_full
             (dicts scenario_devices) (dicts scenario_statuses)
             scenario_detailed); vm_compute; reflexivity.
  - split_and!; vm_compute; reflexivity.
Defined.

